(** * Wallet risk scoring: a shallow embedding of [app.py]

    The scoring engine of [ImprovedWalletRiskScorer] is embedded function by
    function, followed by the ingestion of explorer records, the account
    snapshot and the batch driver; the synthetic data generator and [main]
    are not.  Python floats are idealised as exact rationals ([Q]); Python
    integers are [Z].  What the program obtains from its runtime rather than
    from its own code (NumPy's generator and standard deviation, [hash],
    [str], [int] on strings and [datetime.fromtimestamp] with its time zone)
    is gathered in the [Runtime] class; the reading of [datetime.now()] is
    an explicit argument. *)

From Stdlib Require Import QArith Qround Qabs ZArith List String Ascii Bool Lia Lqa.
Import ListNotations.

Local Open Scope Q_scope.

(** ** Python numerics on rationals *)

Module Py.

(** [a < b] as Python evaluates it on numbers. *)
Definition ltb (a b : Q) : bool := negb (Qle_bool b a).

Definition eqb (a b : Q) : bool := Qeq_bool a b.

(** [min(a, b)]: the first argument unless the second is strictly smaller. *)
Definition min (a b : Q) : Q := if ltb b a then b else a.

(** [max(a, b)]: the first argument unless the second is strictly larger. *)
Definition max (a b : Q) : Q := if ltb a b then b else a.

(** [max(xs)] of a non-empty list, given as head and tail. *)
Definition max_list (x : Q) (xs : list Q) : Q := fold_left max xs x.

(** [sum(xs)]: left to right from [0]. *)
Definition sum (xs : list Q) : Q := fold_left Qplus xs 0.

Definition len {A} (xs : list A) : Z := Z.of_nat (List.length xs).

(** [round(x, nd)]: to the nearest multiple of [10^-nd], ties to even. *)
Definition round (x : Q) (nd : nat) : Q :=
  let scale := (10 ^ Z.of_nat nd)%Z in
  let y := x * inject_Z scale in
  let fl := Qfloor y in
  let frac := y - inject_Z fl in
  let n := if ltb frac (1 # 2) then fl
           else if ltb (1 # 2) frac then (fl + 1)%Z
           else if Z.even fl then fl else (fl + 1)%Z in
  inject_Z n / inject_Z scale.

End Py.

(** ** Exceptions

    Every failure the engine can meet is a subclass of Python's [Exception];
    the payload is what [str(e)] prints. *)

Inductive exn : Type :=
| KeyError (key : string)
| ValueError (msg : string)
| OverflowError (msg : string)
| OSError (msg : string)
| RuntimeError (msg : string).

Definition exn_str (e : exn) : string :=
  match e with
  | KeyError key => ("'" ++ key ++ "'")%string
  | ValueError msg => msg
  | OverflowError msg => msg
  | OSError msg => msg
  | RuntimeError msg => msg
  end.

(** A computation that returns or raises. *)
Definition result (A : Type) : Type := (exn + A)%type.

Definition ret {A} (a : A) : result A := inr a.
Definition raise {A} (e : exn) : result A := inl e.

Definition bind {A B} (m : result A) (k : A -> result B) : result B :=
  match m with
  | inl e => inl e
  | inr a => k a
  end.

Notation "x <- m ;; k" := (bind m (fun x => k))
  (at level 61, m at next level, right associativity).

(** A list comprehension whose element expression may raise. *)
Fixpoint mapM {A B} (f : A -> result B) (xs : list A) : result (list B) :=
  match xs with
  | [] => ret []
  | x :: rest => y <- f x ;; ys <- mapM f rest ;; ret (y :: ys)
  end.

(** A list comprehension whose filter may raise. *)
Fixpoint filterM {A} (p : A -> result bool) (xs : list A) : result (list A) :=
  match xs with
  | [] => ret []
  | x :: rest =>
      b <- p x ;; ys <- filterM p rest ;; ret (if b then x :: ys else ys)
  end.

(** [d[key]] on a dictionary entry that may be absent. *)
Definition getitem {A} (key : string) (entry : option A) : result A :=
  match entry with
  | Some a => ret a
  | None => raise (KeyError key)
  end.

(** [d.get(key, default)] *)
Definition get {A} (entry : option A) (default : A) : A :=
  match entry with
  | Some a => a
  | None => default
  end.

(** ** True division of integers *)

(** A quotient of integers is rounded to the nearest float; from
    [2^1024 - 2^970] on it rounds beyond the largest one. *)
Definition float_overflow_bound : Q := inject_Z (2 ^ 1024 - 2 ^ 970).

(** [a / b] on two integers, [b] positive: the quotient, or
    [OverflowError] when it is too large for a float. *)
Definition py_truediv (a b : Z) : result Q :=
  let q := inject_Z a / inject_Z b in
  if Qle_bool float_overflow_bound (Qabs q) then
    raise (OverflowError "integer division result too large for a float")
  else ret q.

(** ** Data model *)

(** The dictionary returned by [get_wallet_basic_info]. *)
Record BasicInfo : Type := {
  bi_eth_balance : Q;
  bi_total_tx_count : Z;
  is_active : bool
}.

(** The keys of a transaction dictionary that the engine reads.  The
    explorer delivers strings; the two classification flags are added at
    ingestion.  [None] is a missing key. *)
Record Transaction : Type := {
  value : option string;
  timeStamp : option string;
  isError : option string;
  is_compound : option bool;
  is_defi : option bool
}.

(** The feature dictionary.  [inactive_risk_modifier] is a key of the
    inactive shape only. *)
Record Features : Type := {
  eth_balance : Q;
  total_tx_count : Z;
  is_active_wallet : bool;
  analyzed_transactions : Z;
  successful_transactions : Z;
  failed_transactions : Z;
  success_rate : Q;
  compound_transactions : Z;
  defi_transactions : Z;
  compound_ratio : Q;
  defi_ratio : Q;
  total_volume_eth : Q;
  avg_tx_value_eth : Q;
  max_tx_value_eth : Q;
  volume_volatility : Q;
  large_tx_count : Z;
  large_tx_ratio : Q;
  days_since_first_tx : Z;
  days_since_last_tx : Z;
  avg_monthly_frequency : Q;
  recent_activity_count : Z;
  activity_decline : Q;
  wallet_maturity : Q;
  engagement_score : Q;
  volume_concentration : Q;
  inactive_risk_modifier : option Q
}.

(** The keys of the risk-component dictionary, in insertion order. *)
Inductive component : Type :=
| liquidation_risk
| volatility_risk
| concentration_risk
| activity_risk
| leverage_risk
| liquidity_risk.

Definition component_keys : list component :=
  [liquidation_risk; volatility_risk; concentration_risk;
   activity_risk; leverage_risk; liquidity_risk].

(** The risk-component dictionary: one value per key. *)
Record Components : Type := {
  liquidation : Q;
  volatility : Q;
  concentration : Q;
  activity : Q;
  leverage : Q;
  liquidity : Q
}.

(** [risk_components[c]] *)
Definition lookup (rc : Components) (c : component) : Q :=
  match c with
  | liquidation_risk => liquidation rc
  | volatility_risk => volatility rc
  | concentration_risk => concentration rc
  | activity_risk => activity rc
  | leverage_risk => leverage rc
  | liquidity_risk => liquidity rc
  end.

(** [{k: g(v) for k, v in d.items()}] *)
Definition map_values (g : Q -> Q) (rc : Components) : Components :=
  {| liquidation := g (liquidation rc);
     volatility := g (volatility rc);
     concentration := g (concentration rc);
     activity := g (activity rc);
     leverage := g (leverage rc);
     liquidity := g (liquidity rc) |}.

(** [self.risk_weights] *)
Definition risk_weights (c : component) : Q :=
  match c with
  | liquidation_risk => 25 # 100
  | volatility_risk => 20 # 100
  | concentration_risk => 15 # 100
  | activity_risk => 15 # 100
  | leverage_risk => 15 # 100
  | liquidity_risk => 10 # 100
  end.

(** The report fields of a successful analysis. *)
Record Report : Type := {
  rep_eth_balance : Q;
  rep_total_tx_count : Z;
  rep_analyzed_transactions : Z;
  rep_compound_transactions : Z;
  rep_defi_transactions : Z;
  rep_success_rate : Q;
  rep_days_since_last_tx : Z;
  rep_engagement_score : Q;
  rep_is_active_wallet : bool;
  rep_scores : Components
}.

(** The dictionary returned by [analyze_wallet]: the keys common to both
    outcomes, [error_message] on failure only, the report on success only. *)
Record AnalysisResult : Type := {
  wallet_address : string;
  risk_score : Q;
  risk_category : string;
  analysis_status : string;
  error_message : option string;
  report : option Report
}.

(** ** What the runtime provides

    NumPy's global generator ([np.random.seed] installs a fresh state,
    [np.random.normal] draws and advances) and [np.std]; Python's [hash],
    and [str] on the balance as the program holds it (the integer [0] of a
    failed lookup is [0 # 1], a float obtained as [wei / 10**18] is
    [wei # 10^18], so that [str] may print the two differently, as Python
    does with [0] and [0.0]); the built-in [int(s)] and [int(s, 16)] on
    strings, which return or raise; and [datetime.fromtimestamp], which
    turns epoch seconds into the naive local date-time of the machine's
    time zone, here counted in seconds on the same line as the reading of
    [datetime.now()], or raises on a time stamp outside its range. *)
Class Runtime : Type := {
  rng_state : Type;
  np_random_seed : Z -> rng_state;
  np_random_normal : Q -> Q -> rng_state -> Q * rng_state;
  np_std : list Q -> Q;
  py_hash : string -> Z;
  py_str : Q -> string;
  py_int : string -> result Z;
  py_int_base16 : string -> result Z;
  fromtimestamp : Z -> result Z
}.

(** [np.mean] *)
Definition np_mean (xs : list Q) : Q := Py.sum xs / inject_Z (Py.len xs).

(** ** Feature extraction *)

(** [_get_inactive_wallet_features] *)
Definition _get_inactive_wallet_features (basic_info : BasicInfo) : Features :=
  let eth_balance := bi_eth_balance basic_info in
  let total_tx_count := bi_total_tx_count basic_info in
  let risk_modifier :=
    if (total_tx_count =? 0)%Z && Py.eqb eth_balance 0 then 3 # 10
    else if (total_tx_count =? 0)%Z && Py.ltb 0 eth_balance then 6 # 10
    else if (0 <? total_tx_count)%Z && Py.eqb eth_balance 0 then 8 # 10
    else 5 # 10 in
  {| eth_balance := eth_balance;
     total_tx_count := total_tx_count;
     is_active_wallet := false;
     analyzed_transactions := 0;
     successful_transactions := 0;
     failed_transactions := 0;
     success_rate := 0;
     compound_transactions := 0;
     defi_transactions := 0;
     compound_ratio := 0;
     defi_ratio := 0;
     total_volume_eth := 0;
     avg_tx_value_eth := 0;
     max_tx_value_eth := 0;
     volume_volatility := 0;
     large_tx_count := 0;
     large_tx_ratio := 0;
     days_since_first_tx := 0;
     days_since_last_tx := 999;
     avg_monthly_frequency := 0;
     recent_activity_count := 0;
     activity_decline := 1;
     wallet_maturity := 0;
     engagement_score := 0;
     volume_concentration := 0;
     inactive_risk_modifier := Some risk_modifier |}.

Definition seconds_per_day : Z := 86400.

(** [(now - t).days] on two naive date-times: whole days, rounded down.
    Both are counted in seconds on the local line of [fromtimestamp]; the
    sub-second part of [now] changes neither this quotient nor the 30-day
    comparison below. *)
Definition days_between (now t : Z) : Z := ((now - t) / seconds_per_day)%Z.

Definition min_list (x : Z) (xs : list Z) : Z := fold_left Z.min xs x.
Definition max_list (x : Z) (xs : list Z) : Z := fold_left Z.max xs x.

Section Engine.

Context {RT : Runtime}.

(** The element expression [int(tx['value']) / 10**18] of the [tx_values]
    comprehension. *)
Definition tx_value_eth (tx : Transaction) : result Q :=
  s <- getitem "value" (value tx) ;;
  v <- py_int s ;;
  py_truediv v (10 ^ 18).

(** The element expression [datetime.fromtimestamp(int(tx['timeStamp']))]
    of the [tx_times] comprehension. *)
Definition tx_time (tx : Transaction) : result Z :=
  s <- getitem "timeStamp" (timeStamp tx) ;;
  t <- py_int s ;;
  fromtimestamp t.

(** [extract_comprehensive_features].  [now] is the reading of
    [datetime.now()].  The comprehensions run in the order of the source,
    so the exception reported is the one Python meets first. *)
Definition extract_comprehensive_features
    (now : Z) (basic_info : BasicInfo) (transactions : list Transaction)
  : result Features :=
  match transactions with
  | [] => ret (_get_inactive_wallet_features basic_info)
  | _ =>
    let total_transactions := Py.len transactions in
    successful_txs <-
      filterM (fun tx => e <- getitem "isError" (isError tx) ;;
                         ret (String.eqb e "0")) transactions ;;
    let failed_txs := (total_transactions - Py.len successful_txs)%Z in
    let compound_txs := filter (fun tx => get (is_compound tx) false) transactions in
    let defi_txs := filter (fun tx => get (is_defi tx) false) transactions in
    tx_values <- mapM tx_value_eth transactions ;;
    let total_volume := Py.sum tx_values in
    tx_times <- mapM tx_time transactions ;;
    let '(days_since_first_tx, days_since_last_tx, avg_tx_frequency) :=
      match tx_times with
      | t :: ts =>
          let first := days_between now (min_list t ts) in
          let last := days_between now (max_list t ts) in
          (first, last,
           inject_Z total_transactions / inject_Z (Z.max first 1) * 30)
      | [] => (0%Z, 0%Z, 0)
      end in
    let large_tx_threshold := Py.max (np_mean tx_values * 3) (1 # 10) in
    let large_transactions :=
      filter (fun v => Py.ltb large_tx_threshold v) tx_values in
    let recent_30_days := (now - 30 * seconds_per_day)%Z in
    let recent_txs := Py.len (filter (fun t => (recent_30_days <? t)%Z) tx_times) in
    let population := inject_Z (Z.max total_transactions 1) in
    ret
      {| eth_balance := bi_eth_balance basic_info;
         total_tx_count := bi_total_tx_count basic_info;
         is_active_wallet := is_active basic_info;
         analyzed_transactions := total_transactions;
         successful_transactions := Py.len successful_txs;
         failed_transactions := failed_txs;
         success_rate := inject_Z (Py.len successful_txs) / population;
         compound_transactions := Py.len compound_txs;
         defi_transactions := Py.len defi_txs;
         compound_ratio := inject_Z (Py.len compound_txs) / population;
         defi_ratio := inject_Z (Py.len defi_txs) / population;
         total_volume_eth := total_volume;
         avg_tx_value_eth :=
           match tx_values with [] => 0 | _ => np_mean tx_values end;
         max_tx_value_eth :=
           match tx_values with [] => 0 | v :: vs => Py.max_list v vs end;
         volume_volatility :=
           if (1 <? Py.len tx_values)%Z then np_std tx_values else 0;
         large_tx_count := Py.len large_transactions;
         large_tx_ratio := inject_Z (Py.len large_transactions) / population;
         days_since_first_tx := days_since_first_tx;
         days_since_last_tx := days_since_last_tx;
         avg_monthly_frequency := avg_tx_frequency;
         recent_activity_count := recent_txs;
         activity_decline :=
           1 - inject_Z recent_txs
               / Py.max (inject_Z total_transactions / 12) 1;
         wallet_maturity := Py.min 1 (inject_Z days_since_first_tx / 365);
         engagement_score :=
           inject_Z (Py.len compound_txs + Py.len defi_txs) / population;
         volume_concentration :=
           match tx_values with
           | [] => 0
           | v :: vs => Py.max_list v vs / Py.max total_volume 1
           end;
         inactive_risk_modifier := None |}
  end.

(** ** Risk components *)

(** The [base_risks] table of [_calculate_inactive_wallet_risk]. *)
Definition base_risks (features : Features) : Components :=
  let eth_balance := eth_balance features in
  let total_tx_count := total_tx_count features in
  if (total_tx_count =? 0)%Z && Py.eqb eth_balance 0 then
    {| liquidation := 2 # 10; volatility := 1 # 10; concentration := 3 # 10;
       activity := 9 # 10; leverage := 1 # 10; liquidity := 7 # 10 |}
  else if (total_tx_count =? 0)%Z && Py.ltb 0 eth_balance then
    let balance_factor := Py.min 1 (eth_balance / 10) in
    {| liquidation := 3 # 10; volatility := 2 # 10; concentration := 4 # 10;
       activity := 8 # 10; leverage := 2 # 10;
       liquidity := (6 # 10) * (1 - balance_factor) |}
  else if (0 <? total_tx_count)%Z && Py.eqb eth_balance 0 then
    let activity_factor := Py.min 1 (inject_Z total_tx_count / 100) in
    {| liquidation := 6 # 10; volatility := 4 # 10; concentration := 5 # 10;
       activity := 7 # 10; leverage := 4 # 10; liquidity := 8 # 10 |}
  else
    {| liquidation := 4 # 10; volatility := 3 # 10; concentration := 4 # 10;
       activity := 6 # 10; leverage := 3 # 10; liquidity := 5 # 10 |}.

(** The value drawn by [_calculate_inactive_wallet_risk] after re-seeding
    the global generator from the balance, and the generator afterwards. *)
Definition draw_variation (features : Features) : Q * rng_state :=
  let seed := (py_hash (py_str (eth_balance features)) mod 2 ^ 32)%Z in
  np_random_normal 0 (5 # 100) (np_random_seed seed).

(** [_calculate_inactive_wallet_risk]: the generator state it is entered
    with is overwritten by the seeding. *)
Definition _calculate_inactive_wallet_risk
    (features : Features) (rng : rng_state) : Components * rng_state :=
  let risk_modifier := get (inactive_risk_modifier features) (5 # 10) in
  let '(variation, rng') := draw_variation features in
  (map_values (fun v => Py.max 0 (Py.min 1 (v + variation)))
              (base_risks features),
   rng').

(** The six formulas of the active branch. *)
Definition active_risk_components (features : Features) : Components :=
  let volume_volatility_norm :=
    volume_volatility features / Py.max (avg_tx_value_eth features) (1 # 100) in
  {| liquidation :=
       Py.min 1
         ((3 # 10) * (1 - success_rate features)
          + (3 # 10) * Py.min 1 (inject_Z (days_since_last_tx features) / 90)
          + (2 # 10) * (1 - engagement_score features)
          + (2 # 10) * activity_decline features);
     volatility :=
       Py.min 1
         ((4 # 10) * Py.min 1 volume_volatility_norm
          + (3 # 10) * large_tx_ratio features
          + (3 # 10) * (1 - Py.min 1 (inject_Z (analyzed_transactions features) / 50)));
     concentration :=
       Py.min 1
         ((5 # 10) * volume_concentration features
          + (3 # 10) * (1 - engagement_score features)
          + (2 # 10) * (1 - Py.min 1 (inject_Z (analyzed_transactions features) / 30)));
     activity :=
       Py.min 1
         ((4 # 10) * Py.min 1 (inject_Z (days_since_last_tx features) / 60)
          + (3 # 10) * (1 - Py.min 1 (avg_monthly_frequency features / 5))
          + (3 # 10) * activity_decline features);
     leverage :=
       Py.min 1
         ((4 # 10) * large_tx_ratio features
          + (3 # 10) * (1 - defi_ratio features)
          + (3 # 10) * Py.min 1 (max_tx_value_eth features
                                 / Py.max (avg_tx_value_eth features * 5) (1 # 10)));
     liquidity :=
       Py.min 1
         ((3 # 10) * (1 - Py.min 1 (total_volume_eth features / 5))
          + (3 # 10) * Py.min 1 (inject_Z (days_since_last_tx features) / 45)
          + (2 # 10) * (inject_Z (failed_transactions features)
                        / inject_Z (Z.max (analyzed_transactions features) 1))
          + (2 # 10) * (1 - Py.min 1 (eth_balance features / (1 # 10)))) |}.

(** [calculate_improved_risk_components] *)
Definition calculate_improved_risk_components
    (features : Features) (rng : rng_state) : Components * rng_state :=
  if negb (is_active_wallet features) then
    _calculate_inactive_wallet_risk features rng
  else (active_risk_components features, rng).

(** ** Composite scorer *)

(** The [weighted_score] sum of [calculate_composite_score]. *)
Definition weighted_score (risk_components : Components) : Q :=
  Py.sum (map (fun c => lookup risk_components c * risk_weights c)
              component_keys).

(** [calculate_composite_score] *)
Definition calculate_composite_score
    (risk_components : Components) (features : Features) : Q :=
  let weighted_score := weighted_score risk_components in
  let scaled_score :=
    if negb (is_active_wallet features) then 200 + weighted_score * 500
    else
      let engagement_bonus := engagement_score features * 100 in
      let maturity_bonus := wallet_maturity features * 50 in
      weighted_score * 800 + 100 - engagement_bonus - maturity_bonus in
  Py.max 0 (Py.min 1000 scaled_score).

(** [categorize_risk] *)
Definition categorize_risk (score : Q) : string :=
  if Qle_bool score 150 then "Very Low"%string
  else if Qle_bool score 350 then "Low"%string
  else if Qle_bool score 550 then "Medium"%string
  else if Qle_bool score 750 then "High"%string
  else "Very High"%string.

(** ** Orchestrator *)

(** The two providers do network requests and are left abstract.  They are
    given the most liberal behaviour: either may return or raise, and the
    transaction provider may use the global generator (its fallback,
    [_generate_realistic_mock_data], seeds it and draws from it). *)
Variable get_wallet_basic_info : string -> result BasicInfo.
Variable fetch_all_transactions :
  string -> rng_state -> result (list Transaction) * rng_state.

(** The [try] block of [analyze_wallet]. *)
Definition analyze_wallet_body
    (now : Z) (wallet_address : string) (rng : rng_state)
  : result AnalysisResult * rng_state :=
  match get_wallet_basic_info wallet_address with
  | inl e => (raise e, rng)
  | inr basic_info =>
    match fetch_all_transactions wallet_address rng with
    | (inl e, rng1) => (raise e, rng1)
    | (inr transactions, rng1) =>
      match extract_comprehensive_features now basic_info transactions with
      | inl e => (raise e, rng1)
      | inr features =>
        let '(risk_components, rng2) :=
          calculate_improved_risk_components features rng1 in
        let risk_score := calculate_composite_score risk_components features in
        let risk_category := categorize_risk risk_score in
        (ret {| wallet_address := wallet_address;
                risk_score := Py.round risk_score 2;
                risk_category := risk_category;
                analysis_status := "success";
                error_message := None;
                report := Some
                  {| rep_eth_balance := Py.round (eth_balance features) 4;
                     rep_total_tx_count := total_tx_count features;
                     rep_analyzed_transactions := analyzed_transactions features;
                     rep_compound_transactions := compound_transactions features;
                     rep_defi_transactions := defi_transactions features;
                     rep_success_rate := Py.round (success_rate features) 3;
                     rep_days_since_last_tx := days_since_last_tx features;
                     rep_engagement_score := Py.round (engagement_score features) 3;
                     rep_is_active_wallet := is_active_wallet features;
                     rep_scores :=
                       map_values (fun v => Py.round v 3) risk_components |} |},
         rng2)
      end
    end
  end.

(** The record built by the [except Exception] handler. *)
Definition failure_record (wallet_address : string) (e : exn) : AnalysisResult :=
  {| wallet_address := wallet_address;
     risk_score := 999;
     risk_category := "Analysis Failed";
     analysis_status := "failed";
     error_message := Some (exn_str e);
     report := None |}.

(** [analyze_wallet] *)
Definition analyze_wallet
    (now : Z) (wallet_address : string) (rng : rng_state)
  : AnalysisResult * rng_state :=
  match analyze_wallet_body now wallet_address rng with
  | (inr res, rng') => (res, rng')
  | (inl e, rng') => (failure_record wallet_address e, rng')
  end.


End Engine.

(** ** A reference runtime

    One concrete [Runtime], to run the model on sample wallets: a linear
    congruential generator, a square root rounded down to 53 fractional
    bits, a polynomial string hash, a fraction printer, [int] on plain
    ASCII literals (an optional sign and digits, which is what the samples
    hold and where it agrees with Python's) and [datetime.fromtimestamp]
    in the zone UTC.  The theorems below hold for every runtime. *)

Module Demo.

Definition digit_of (c : ascii) : option Z :=
  let n := Z.of_nat (nat_of_ascii c) in
  if ((48 <=? n) && (n <=? 57))%Z then Some (n - 48)%Z else None.

Fixpoint digits (acc : Z) (s : string) : option Z :=
  match s with
  | EmptyString => Some acc
  | String c rest =>
      match digit_of c with
      | Some d => digits (10 * acc + d)%Z rest
      | None => None
      end
  end.

(** An optional sign followed by at least one digit. *)
Definition parse_int (s : string) : result Z :=
  let bad := ValueError ("invalid literal for int() with base 10: '" ++ s ++ "'") in
  let unsigned (t : string) :=
    match t with
    | EmptyString => None
    | _ => digits 0 t
    end in
  let parsed :=
    match s with
    | String "-"%char t => option_map Z.opp (unsigned t)
    | String "+"%char t => unsigned t
    | _ => unsigned s
    end in
  match parsed with
  | Some z => ret z
  | None => raise bad
  end.

Definition hex_digit_of (c : ascii) : option Z :=
  let n := Z.of_nat (nat_of_ascii c) in
  if ((48 <=? n) && (n <=? 57))%Z then Some (n - 48)%Z
  else if ((97 <=? n) && (n <=? 102))%Z then Some (n - 87)%Z
  else if ((65 <=? n) && (n <=? 70))%Z then Some (n - 55)%Z
  else None.

Fixpoint hex_digits (acc : Z) (s : string) : option Z :=
  match s with
  | EmptyString => Some acc
  | String c rest =>
      match hex_digit_of c with
      | Some d => hex_digits (16 * acc + d)%Z rest
      | None => None
      end
  end.

(** An optional sign, an optional [0x] or [0X], and at least one
    hexadecimal digit. *)
Definition parse_int_base16 (s : string) : result Z :=
  let bad := ValueError ("invalid literal for int() with base 16: '" ++ s ++ "'") in
  let digits_of (t : string) :=
    match t with
    | EmptyString => None
    | _ => hex_digits 0 t
    end in
  let unsigned (t : string) :=
    match t with
    | String "0"%char (String "x"%char u) => digits_of u
    | String "0"%char (String "X"%char u) => digits_of u
    | _ => digits_of t
    end in
  let parsed :=
    match s with
    | String "-"%char t => option_map Z.opp (unsigned t)
    | String "+"%char t => unsigned t
    | _ => unsigned s
    end in
  match parsed with
  | Some z => ret z
  | None => raise bad
  end.

(** Universal time: the local line is the epoch line.  The seconds from
    0001-01-02 to the end of 9999 are accepted; the message of the
    [ValueError], which names the year, is abridged. *)
Definition utc_fromtimestamp (t : Z) : result Z :=
  if ((t <? - 2 ^ 63) || (2 ^ 63 <=? t))%Z then
    raise (OverflowError "timestamp out of range for platform time_t")
  else if ((-62135510400 <=? t) && (t <=? 253402300799))%Z then ret t
  else raise (ValueError "year is out of range").

Definition sqrt_down (q : Q) : Q :=
  Z.sqrt (Qnum q * 2 ^ 106 / Zpos (Qden q)) # 2 ^ 53.

Definition std (xs : list Q) : Q :=
  let m := np_mean xs in
  sqrt_down (np_mean (map (fun x => (x - m) * (x - m)) xs)).

Fixpoint hash_from (h : Z) (s : string) : Z :=
  match s with
  | EmptyString => h
  | String c rest => hash_from (31 * h + Z.of_nat (nat_of_ascii c))%Z rest
  end.

Definition hash (s : string) : Z := hash_from 7 s.

Definition digit_char (d : Z) : ascii := ascii_of_nat (Z.to_nat (48 + d)).

Fixpoint show_pos (fuel : nat) (n : Z) (acc : string) : string :=
  match fuel with
  | O => acc
  | S fuel' =>
      let acc' := String (digit_char (n mod 10)) acc in
      if (n <? 10)%Z then acc' else show_pos fuel' (n / 10)%Z acc'
  end.

Definition show_Z (n : Z) : string :=
  let body := show_pos (S (Z.to_nat (Z.log2 (Z.abs n)))) (Z.abs n) EmptyString in
  if (n <? 0)%Z then String "-"%char body else body.

Definition str (q : Q) : string :=
  let r := Qred q in
  (show_Z (Qnum r) ++ "/" ++ show_Z (Zpos (Qden r)))%string.

Definition lcg (s : Z) : Z := ((s * 1103515245 + 12345) mod 2 ^ 31)%Z.

Definition normal (loc scale : Q) (s : Z) : Q * Z :=
  let s' := lcg s in
  (loc + scale * (inject_Z (s' mod 4001 - 2000) / 1000), s').

Definition runtime : Runtime :=
  {| rng_state := Z;
     np_random_seed := fun n => n;
     np_random_normal := normal;
     np_std := std;
     py_hash := hash;
     py_str := str;
     py_int := parse_int;
     py_int_base16 := parse_int_base16;
     fromtimestamp := utc_fromtimestamp |}.

(** A successful plain transfer of [wei] at epoch second [t]. *)
Definition transfer (wei t : Z) : Transaction :=
  {| value := Some (show_Z wei);
     timeStamp := Some (show_Z t);
     isError := Some "0"%string;
     is_compound := Some false;
     is_defi := Some false |}.

Definition ether : Z := 10 ^ 18.

(** The clock reading used in the samples. *)
Definition now : Z := 1700000000.

(** A funded wallet with three 1-ETH transfers made today. *)
Definition busy_info : BasicInfo :=
  {| bi_eth_balance := 1; bi_total_tx_count := 3; is_active := true |}.

Definition busy_txs : list Transaction :=
  [transfer ether (now - 60); transfer ether (now - 120); transfer ether (now - 180)].

(** A funded wallet with a single half-ETH transfer. *)
Definition small_info : BasicInfo :=
  {| bi_eth_balance := 1; bi_total_tx_count := 1; is_active := true |}.

Definition small_txs : list Transaction := [transfer (ether / 2) (now - 60)].

(** Wallets without fetched transactions. *)
Definition unused_info : BasicInfo :=
  {| bi_eth_balance := 0; bi_total_tx_count := 0; is_active := false |}.

Definition funded_info : BasicInfo :=
  {| bi_eth_balance := 5; bi_total_tx_count := 0; is_active := false |}.

(** An emptied wallet: three transactions on chain, no balance left, hence
    flagged inactive by its snapshot. *)
Definition drained_info : BasicInfo :=
  {| bi_eth_balance := 0; bi_total_tx_count := 3; is_active := false |}.

(** A printer that shows the fraction as it is held, and so tells the
    integer [0] from a float [0.0] obtained by division, as [str] does. *)
Definition str_as_held (q : Q) : string :=
  (show_Z (Qnum q) ++ "/" ++ show_Z (Zpos (Qden q)))%string.

(** The same runtime in another process, where [hash] is salted
    differently. *)
Definition runtime_of_another_process : Runtime :=
  {| rng_state := Z;
     np_random_seed := fun n => n;
     np_random_normal := normal;
     np_std := std;
     py_hash := hash_from 11;
     py_str := str;
     py_int := parse_int;
     py_int_base16 := parse_int_base16;
     fromtimestamp := utc_fromtimestamp |}.

Definition runtime_printing_as_held : Runtime :=
  {| rng_state := Z;
     np_random_seed := fun n => n;
     np_random_normal := normal;
     np_std := std;
     py_hash := hash;
     py_str := str_as_held;
     py_int := parse_int;
     py_int_base16 := parse_int_base16;
     fromtimestamp := utc_fromtimestamp |}.

End Demo.

(** ** Ingestion: address classification *)

(** [c.lower()] on one ASCII character. *)
Definition lower_char (c : ascii) : ascii :=
  let n := nat_of_ascii c in
  if ((65 <=? n) && (n <=? 90))%nat then ascii_of_nat (n + 32) else c.

(** [s.lower()]; addresses are ASCII. *)
Fixpoint lower (s : string) : string :=
  match s with
  | EmptyString => EmptyString
  | String c rest => String (lower_char c) (lower rest)
  end.

(** [self.compound_addresses], in insertion order. *)
Definition compound_addresses : list (string * string) :=
  [("comptroller", "0x3d9819210a31b4692b56a9a8e3ac1d291b43b9b8");
   ("cETH", "0x4ddc2d193948926d02f9b1fe9e1daa0718270ed5");
   ("cUSDC", "0x39aa39c021dfbae8fac545936693ac917d5e7563");
   ("cDAI", "0x5d3a536e4d6dbd6114cc1ead35777bab948e3643");
   ("cUSDT", "0xf650c3d88d12db855b8bf7d11be6c55a4e07dcc9");
   ("cWBTC", "0xc11b1268c1a384e55c48c2391d8d480264a3a7f4");
   ("cAAVE", "0xe65cdb6479bac1e22340e4e755fae7e509ecd06c");
   ("cUNI", "0x35a18000230da775cac24873d00ff85bccded550");
   ("cUSDCv3", "0xc3d688b66703497daa19211eedfe9f51c5732f02");
   ("cWETHv3", "0xa17581a9e3356d9a858b789d68b4d866e593ae94")]%string.

(** The [defi_protocols] set of [_is_defi_transaction]; membership does not
    depend on the order in which a set is listed. *)
Definition defi_protocols : list string :=
  ["0x7a250d5630b4cf539739df2c5dacb4c659f2488d";
   "0xe592427a0aece92de3edee1f18e0157c05861564";
   "0x7d2768de32b0b80b7a3454c06bdac94a69ddc7a9";
   "0x87870bace213686c4007994edf9cc3ef4e33e4e";
   "0x9759a6ac90977b93b58547b4a71c78317f391a28"]%string.

(** [x in xs] on strings. *)
Definition str_in (x : string) (xs : list string) : bool :=
  existsb (String.eqb x) xs.

(** The test [tx['to'].lower() in [addr.lower() for addr in
    self.compound_addresses.values()]] of [fetch_all_transactions]. *)
Definition is_compound_address (to_address : string) : bool :=
  str_in (lower to_address) (map (fun kv => lower (snd kv)) compound_addresses).

(** [_is_defi_transaction] *)
Definition _is_defi_transaction (to_address : string) : bool :=
  str_in (lower to_address) (map lower defi_protocols).

(** A transaction dictionary as the explorer delivers it and ingestion
    completes it: the recipient, the keys the engine reads, and the type
    label. *)
Record ExplorerTx : Type := {
  tx_to : option string;
  tx_body : Transaction;
  tx_type : option string
}.

Definition set_is_compound (tx : ExplorerTx) (b : bool) : ExplorerTx :=
  {| tx_to := tx_to tx;
     tx_body :=
       {| value := value (tx_body tx);
          timeStamp := timeStamp (tx_body tx);
          isError := isError (tx_body tx);
          is_compound := Some b;
          is_defi := is_defi (tx_body tx) |};
     tx_type := tx_type tx |}.

Definition set_is_defi (tx : ExplorerTx) (b : bool) : ExplorerTx :=
  {| tx_to := tx_to tx;
     tx_body :=
       {| value := value (tx_body tx);
          timeStamp := timeStamp (tx_body tx);
          isError := isError (tx_body tx);
          is_compound := is_compound (tx_body tx);
          is_defi := Some b |};
     tx_type := tx_type tx |}.

Definition set_tx_type (tx : ExplorerTx) (label : string) : ExplorerTx :=
  {| tx_to := tx_to tx; tx_body := tx_body tx; tx_type := Some label |}.

(** The decoded body of the [txlist] response. *)
Record TxListResponse : Type := {
  resp_status : option string;
  resp_result : option (list ExplorerTx)
}.

(** The label [_classify_transaction_type] is to give, from the two flags
    and the value. *)
Definition expected_label (compound defi : bool) (v : Z) : string :=
  if compound then "compound"
  else if defi then "defi"
  else if (v =? 0)%Z then "contract_interaction"
  else if (0 <? v)%Z then "transfer"
  else "unknown".

Section Classification.

Context {RT : Runtime}.

(** [_classify_transaction_type] *)
Definition _classify_transaction_type (tx : ExplorerTx) : result string :=
  s <- getitem "value" (value (tx_body tx)) ;;
  value <- py_int s ;;
  to_address <- getitem "to" (tx_to tx) ;;
  compound <- getitem "is_compound" (is_compound (tx_body tx)) ;;
  if compound then ret "compound"%string
  else
    defi <- getitem "is_defi" (is_defi (tx_body tx)) ;;
    if defi then ret "defi"%string
    else if (value =? 0)%Z then ret "contract_interaction"%string
    else if (0 <? value)%Z then ret "transfer"%string
    else ret "unknown"%string.


(** One turn of the classification loop of [fetch_all_transactions]. *)
Definition classify_transaction (tx : ExplorerTx) : result ExplorerTx :=
  a <- getitem "to" (tx_to tx) ;;
  let tx1 := set_is_compound tx (is_compound_address a) in
  a' <- getitem "to" (tx_to tx1) ;;
  let tx2 := set_is_defi tx1 (_is_defi_transaction a') in
  label <- _classify_transaction_type tx2 ;;
  ret (set_tx_type tx2 label).


(** What [fetch_all_transactions] does with the decoded response: classify
    and return the records, or return the empty list. *)
Definition ingest_response (data : TxListResponse) : result (list Transaction) :=
  status <- getitem "status" (resp_status data) ;;
  if String.eqb status "1" then
    transactions <- getitem "result" (resp_result data) ;;
    match transactions with
    | [] => ret []
    | _ =>
        classified <- mapM classify_transaction transactions ;;
        ret (map tx_body classified)
    end
  else ret [].

End Classification.

Section Ingestion.

Context {RT : Runtime}.

(** The request [requests.get(...).json()], which may raise, and the
    synthetic generator [_generate_realistic_mock_data], which draws from
    NumPy's generator, are left abstract. *)
Variable http_get_txlist : string -> result TxListResponse.
Variable _generate_realistic_mock_data :
  string -> rng_state -> result (list Transaction) * rng_state.

(** [fetch_all_transactions]; [etherscan_api_key] is the attribute set by
    the constructor ([None] or a string). *)
Definition fetch_all_transactions
    (etherscan_api_key : option string) (wallet_address : string)
    (rng : rng_state) : result (list Transaction) * rng_state :=
  let no_key :=
    match etherscan_api_key with
    | None => true
    | Some key => String.eqb key EmptyString
    end in
  if no_key then _generate_realistic_mock_data wallet_address rng
  else
    match (data <- http_get_txlist wallet_address ;; ingest_response data) with
    | inr transactions => (ret transactions, rng)
    | inl e => _generate_realistic_mock_data wallet_address rng
    end.

End Ingestion.

(** ** The account snapshot *)

(** The decoded body of a balance or transaction-count response. *)
Record ApiResponse : Type := {
  api_status : option string;
  api_result : option string
}.

Section Snapshot.

Context {RT : Runtime}.

(** The two requests [requests.get(...).json()], which may raise. *)
Variable http_get_balance : string -> result ApiResponse.
Variable http_get_txcount : string -> result ApiResponse.

(** The [try] block of [get_wallet_basic_info]. *)
Definition get_wallet_basic_info_body (wallet_address : string) : result BasicInfo :=
  balance_data <- http_get_balance wallet_address ;;
  status <- getitem "status" (api_status balance_data) ;;
  eth_balance <-
    (if String.eqb status "1" then
       r <- getitem "result" (api_result balance_data) ;;
       wei <- py_int r ;;
       py_truediv wei (10 ^ 18)
     else ret 0) ;;
  txcount_data <- http_get_txcount wallet_address ;;
  total_tx_count <-
    match api_result txcount_data with
    | Some r => py_int_base16 r
    | None => ret 0%Z
    end ;;
  ret {| bi_eth_balance := eth_balance;
         bi_total_tx_count := total_tx_count;
         is_active := (0 <? total_tx_count)%Z && Py.ltb 0 eth_balance |}.

(** [get_wallet_basic_info]: any exception gives the empty snapshot. *)
Definition get_wallet_basic_info (wallet_address : string) : BasicInfo :=
  match get_wallet_basic_info_body wallet_address with
  | inr basic_info => basic_info
  | inl _ =>
      {| bi_eth_balance := 0; bi_total_tx_count := 0; is_active := false |}
  end.

End Snapshot.

(** ** The batch driver *)

(** What the driver itself can raise. *)
Inductive batch_error : Type :=
| RangeValueError (msg : string)
| ZeroDivisionError (msg : string).

(** [range(0, stop, step)] for [stop >= 0]. *)
Definition py_range (stop step : Z) : batch_error + list Z :=
  if (step =? 0)%Z then inl (RangeValueError "range() arg 3 must not be zero")
  else if (step <? 0)%Z then inr []
  else inr (map (fun k => (Z.of_nat k * step)%Z)
                (seq 0 (Z.to_nat ((stop + step - 1) / step)))).

(** [xs[a:b]] for [0 <= a]. *)
Definition py_slice {A} (xs : list A) (a b : Z) : list A :=
  firstn (Z.to_nat (b - a)) (skipn (Z.to_nat a) xs).

(** The three counters of the driver. *)
Record Tally : Type := {
  active_count : Z;
  inactive_count : Z;
  failed_count : Z
}.

(** The record appended by the driver's own exception handler. *)
Definition critical_record (wallet : string) (e : exn) : AnalysisResult :=
  {| wallet_address := wallet;
     risk_score := 999;
     risk_category := "Critical Error";
     analysis_status := "failed";
     error_message := Some (exn_str e);
     report := None |}.

Definition count_failed (t : Tally) : Tally :=
  {| active_count := active_count t;
     inactive_count := inactive_count t;
     failed_count := failed_count t + 1 |}.

Definition count_active (t : Tally) : Tally :=
  {| active_count := active_count t + 1;
     inactive_count := inactive_count t;
     failed_count := failed_count t |}.

Definition count_inactive (t : Tally) : Tally :=
  {| active_count := active_count t;
     inactive_count := inactive_count t + 1;
     failed_count := failed_count t |}.

Section Batch.

(** The analysis of one wallet, with whatever state it threads (generator,
    clock); it is allowed to raise. *)
Context {W : Type}.
Variable analyze : string -> W -> result AnalysisResult * W.

(** The body of the inner loop for one wallet, on the records that
    [AnalysisResult] describes ([risk_score] is always there, and so are
    [analyzed_transactions] whenever [is_active_wallet] is, so that the
    progress line cannot fail once a counter was incremented): the records
    it appends to [batch_results], the counters and the state afterwards.  A record that is not failed and has no
    [is_active_wallet] key makes the body raise after the record was
    appended, so the handler appends a second one. *)
Definition process_wallet (wallet : string) (tally : Tally) (w : W)
  : list AnalysisResult * Tally * W :=
  match analyze wallet w with
  | (inl e, w') => ([critical_record wallet e], count_failed tally, w')
  | (inr result, w') =>
      if String.eqb (analysis_status result) "failed" then
        ([result], count_failed tally, w')
      else
        match report result with
        | None =>
            ([result; critical_record wallet (KeyError "is_active_wallet")],
             count_failed tally, w')
        | Some rep =>
            if rep_is_active_wallet rep then ([result], count_active tally, w')
            else ([result], count_inactive tally, w')
        end
  end.

(** The inner loop over a list of wallets, from given records. *)
Definition process_wallets (wallets : list string)
    (acc : list AnalysisResult * Tally * W) : list AnalysisResult * Tally * W :=
  fold_left
    (fun '(records, tally, w) wallet =>
       let '(appended, tally', w') := process_wallet wallet tally w in
       (records ++ appended, tally', w'))
    wallets acc.

(** One turn of the outer loop: slice the batch, run the inner loop from an
    empty [batch_results], extend [results]. *)
Definition process_batch (wallet_addresses : list string) (batch_size : Z)
    (state : list AnalysisResult * Tally * W) (batch_start : Z)
  : list AnalysisResult * Tally * W :=
  let '(results, tally, w) := state in
  let total_wallets := Py.len wallet_addresses in
  let batch_end := Z.min (batch_start + batch_size) total_wallets in
  let batch_wallets := py_slice wallet_addresses batch_start batch_end in
  let '(batch_results, tally', w') := process_wallets batch_wallets ([], tally, w) in
  (results ++ batch_results, tally', w').

(** [analyze_wallet_list_batch]: the rows of the returned frame, with the
    final counters and state.  Progress printing and the CSV checkpoints,
    which do not feed back into the loop, are left out; the closing
    summary divides by the number of rows. *)
Definition analyze_wallet_list_batch
    (wallet_addresses : list string) (batch_size : Z) (w : W)
  : batch_error + (list AnalysisResult * Tally * W) :=
  let start :=
    ([], {| active_count := 0; inactive_count := 0; failed_count := 0 |}, w) in
  let total_wallets := Py.len wallet_addresses in
  match py_range total_wallets batch_size with
  | inl e => inl e
  | inr starts =>
      let '(results, tally, w') :=
        fold_left (process_batch wallet_addresses batch_size) starts start in
      if (Py.len results =? 0)%Z then inl (ZeroDivisionError "division by zero")
      else inr (results, tally, w')
  end.

End Batch.

(** The number of wallets the counters account for. *)
Definition tally_total (t : Tally) : Z :=
  (active_count t + inactive_count t + failed_count t)%Z.

(** [r.get('analysis_status') == 'failed'] *)
Definition is_failed (r : AnalysisResult) : bool :=
  String.eqb (analysis_status r) "failed".

(** The record says the wallet is active. *)
Definition reports_active (r : AnalysisResult) : bool :=
  negb (is_failed r)
  && match report r with Some rep => rep_is_active_wallet rep | None => false end.

Section Run.

Context {RT : Runtime}.
Variable get_wallet_basic_info : string -> result BasicInfo.
Variable fetch_all_transactions :
  string -> rng_state -> result (list Transaction) * rng_state.

(** The call [self.analyze_wallet(wallet)] inside the driver.  The state is
    the generator and the number of wallets analysed so far; [clock] gives
    the reading of [datetime.now()] at each analysis. *)
Definition analyze_in_run (clock : nat -> Z) (wallet : string)
    (state : rng_state * nat) : result AnalysisResult * (rng_state * nat) :=
  let '(rng, i) := state in
  let '(record, rng') :=
    analyze_wallet get_wallet_basic_info fetch_all_transactions
                   (clock i) wallet rng in
  (ret record, (rng', S i)).

End Run.

(** ** Readable transactions *)

(** The computation returns. *)
Definition returns {A} (m : result A) : bool :=
  match m with inr _ => true | inl _ => false end.

Section Conditions.

Context {RT : Runtime}.

(** Whether [int(d[key])] would return. *)
Definition int_field (entry : option string) : bool :=
  match entry with
  | Some s => returns (py_int s)
  | None => false
  end.

(** Extraction can read the transaction: [isError] is present, the value
    is read by [int] and its quotient by [10**18] fits a float, and the
    time stamp is read by [int] and accepted by [datetime.fromtimestamp]. *)
Definition readable (tx : Transaction) : bool :=
  match isError tx with Some _ => true | None => false end
  && returns (tx_value_eth tx) && returns (tx_time tx).

(** ** Conditions on the input of extraction *)

(** The integer under a key, when the key is present and [int] reads it. *)
Definition int_of (entry : option string) : option Z :=
  match entry with
  | Some s => match py_int s with inr z => Some z | inl _ => None end
  | None => None
  end.

(** The transaction moves a non-negative amount. *)
Definition value_nonneg (tx : Transaction) : bool :=
  match int_of (value tx) with Some z => (0 <=? z)%Z | None => true end.

(** The local date-time of the transaction is not after the clock
    reading. *)
Definition not_in_future (now : Z) (tx : Transaction) : bool :=
  match tx_time tx with inr t => (t <=? now)%Z | inl _ => true end.


End Conditions.

(** The transaction is not flagged both Compound and DeFi. *)
Definition flags_exclusive (tx : Transaction) : bool :=
  negb (get (is_compound tx) false && get (is_defi tx) false).

(** ** More sample data *)

Module Samples.

(** The Uniswap V2 router, in capitals. *)
Definition router_upper : string := "0x7A250D5630B4CF539739DF2C5DACB4C659F2488D".

(** A record as the explorer delivers it: one ether sent to [recipient]. *)
Definition explorer_tx (recipient : string) (t : Z) : ExplorerTx :=
  {| tx_to := Some recipient;
     tx_body :=
       {| value := Some "1000000000000000000"%string;
          timeStamp := Some (Demo.show_Z t);
          isError := Some "0"%string;
          is_compound := None;
          is_defi := None |};
     tx_type := None |}.

Definition response : TxListResponse :=
  {| resp_status := Some "1"%string;
     resp_result :=
       Some [explorer_tx router_upper (Demo.now - 60);
             explorer_tx "0x4ddc2d193948926d02f9b1fe9e1daa0718270ed5" (Demo.now - 120);
             explorer_tx "0x00000000000000000000000000000000000000aa" (Demo.now - 180)] |}.

(** The records of [response] after ingestion. *)
Definition ingested : list Transaction :=
  Eval vm_compute in
    match ingest_response (RT := Demo.runtime) response with
    | inr transactions => transactions
    | inl _ => []
    end.

(** A transfer flagged DeFi. *)
Definition defi_transfer (t : Z) : Transaction :=
  {| value := Some (Demo.show_Z Demo.ether);
     timeStamp := Some (Demo.show_Z t);
     isError := Some "0"%string;
     is_compound := Some false;
     is_defi := Some true |}.

(** Twelve DeFi transfers made within the last twelve minutes. *)
Definition heavy_txs : list Transaction :=
  map (fun k => defi_transfer (Demo.now - 60 * Z.of_nat k)) (seq 1 12).

Definition heavy_info : BasicInfo :=
  {| bi_eth_balance := 1; bi_total_tx_count := 12; is_active := true |}.

(** A list whose second record lacks its value. *)
Definition broken_txs : list Transaction :=
  [Demo.transfer Demo.ether (Demo.now - 60);
   {| value := None;
      timeStamp := Some "bad"%string;
      isError := Some "0"%string;
      is_compound := None;
      is_defi := None |}].

(** Providers for a never-used wallet. *)
Definition unused_snapshot (wallet : string) : result BasicInfo :=
  ret Demo.unused_info.

Definition nothing_fetched (wallet : string) (rng : Z)
  : result (list Transaction) * Z :=
  (ret [], rng).

(** Providers for the wallet with three transfers made today. *)
Definition busy_snapshot (wallet : string) : result BasicInfo :=
  ret Demo.busy_info.

Definition busy_fetched (wallet : string) (rng : Z)
  : result (list Transaction) * Z :=
  (ret Demo.busy_txs, rng).

Definition wallets : list string := ["0xaaa"; "0xbbb"; "0xccc"]%string.

Definition clock (i : nat) : Z := (Demo.now + Z.of_nat i)%Z.

(** The analysis of the test run: never-used wallets. *)
Definition analyze (wallet : string) (state : Z * nat)
  : result AnalysisResult * (Z * nat) :=
  analyze_in_run (RT := Demo.runtime) unused_snapshot nothing_fetched clock
                 wallet state.

(** Responses of the explorer for a wallet holding five ether after 26
    transactions. *)
Definition balance_response (wallet : string) : result ApiResponse :=
  ret {| api_status := Some "1"%string;
         api_result := Some "5000000000000000000"%string |}.

Definition txcount_response (wallet : string) : result ApiResponse :=
  ret {| api_status := None; api_result := Some "0x1a"%string |}.

(** Two component dictionaries, the second nowhere below the first. *)
Definition low_components : Components :=
  {| liquidation := 1 # 10; volatility := 1 # 10; concentration := 1 # 10;
     activity := 1 # 10; leverage := 1 # 10; liquidity := 1 # 10 |}.

Definition high_components : Components :=
  {| liquidation := 5 # 10; volatility := 1 # 10; concentration := 2 # 10;
     activity := 1 # 10; leverage := 1 # 10; liquidity := 9 # 10 |}.

End Samples.

(** ** The liquidation formula of the specification *)

(** The weighted sum of the four liquidation signals. *)
Definition liquidation_signal (f : Features) : Q :=
  (3 # 10) * (1 - success_rate f)
  + (3 # 10) * Py.min 1 (inject_Z (days_since_last_tx f) / 90)
  + (2 # 10) * (1 - engagement_score f)
  + (2 # 10) * activity_decline f.

(** The liquidation risk as the specification words it: the weighted sum,
    clamped to the unit interval. *)
Definition spec_liquidation_risk (f : Features) : Q :=
  Py.max 0 (Py.min 1 (liquidation_signal f)).

Definition in_unit (x : Q) : Prop := 0 <= x <= 1.

(** * Verification *)

(** ** The numeric layer *)

Lemma ltb_lt (a b : Q) : Py.ltb a b = true <-> a < b.
Proof.
  unfold Py.ltb. rewrite negb_true_iff.
  split; intro H.
  - apply Qnot_le_lt. intro L. apply Qle_bool_iff in L. congruence.
  - destruct (Qle_bool b a) eqn:E; [|reflexivity].
    apply Qle_bool_iff in E. exfalso. apply (Qlt_not_le _ _ H E).
Qed.

Lemma ltb_ge (a b : Q) : Py.ltb a b = false <-> b <= a.
Proof.
  unfold Py.ltb. rewrite negb_false_iff. apply Qle_bool_iff.
Qed.

Lemma leb_gt (a b : Q) : Qle_bool a b = false <-> b < a.
Proof.
  rewrite <- ltb_lt. unfold Py.ltb.
  destruct (Qle_bool a b); simpl; intuition congruence.
Qed.

Lemma eqb_eq (a b : Q) : Py.eqb a b = true <-> a == b.
Proof. apply Qeq_bool_iff. Qed.

Lemma eqb_neq (a b : Q) : Py.eqb a b = false <-> ~ a == b.
Proof.
  unfold Py.eqb. split; intro H.
  - intro E. apply Qeq_bool_iff in E. congruence.
  - destruct (Qeq_bool a b) eqn:E; [|reflexivity].
    apply Qeq_bool_iff in E. contradiction.
Qed.

(** Case analyses on the comparisons, leaving the order facts in context. *)
Ltac case_ltb a b :=
  let E := fresh "E" in
  destruct (Py.ltb a b) eqn:E; [apply ltb_lt in E | apply ltb_ge in E].

Ltac case_leb a b :=
  let E := fresh "E" in
  destruct (Qle_bool a b) eqn:E; [apply Qle_bool_iff in E | apply leb_gt in E].

Ltac case_min a b := unfold Py.min at 1; case_ltb b a.
Ltac case_max a b := unfold Py.max at 1; case_ltb a b.

Lemma min_spec (a b : Q) :
  (b < a /\ Py.min a b = b) \/ (a <= b /\ Py.min a b = a).
Proof. unfold Py.min. case_ltb b a; auto. Qed.

Lemma max_spec (a b : Q) :
  (a < b /\ Py.max a b = b) \/ (b <= a /\ Py.max a b = a).
Proof. unfold Py.max. case_ltb a b; auto. Qed.

Lemma min_le_l (a b : Q) : Py.min a b <= a.
Proof. destruct (min_spec a b) as [[H ->]|[H ->]]; lra. Qed.

Lemma min_le_r (a b : Q) : Py.min a b <= b.
Proof. destruct (min_spec a b) as [[H ->]|[H ->]]; lra. Qed.

Lemma min_glb (a b c : Q) : c <= a -> c <= b -> c <= Py.min a b.
Proof. intros. destruct (min_spec a b) as [[H1 ->]|[H1 ->]]; lra. Qed.

Lemma max_ge_l (a b : Q) : a <= Py.max a b.
Proof. destruct (max_spec a b) as [[H ->]|[H ->]]; lra. Qed.

Lemma max_ge_r (a b : Q) : b <= Py.max a b.
Proof. destruct (max_spec a b) as [[H ->]|[H ->]]; lra. Qed.

Lemma max_lub (a b c : Q) : a <= c -> b <= c -> Py.max a b <= c.
Proof. intros. destruct (max_spec a b) as [[H1 ->]|[H1 ->]]; lra. Qed.

Lemma min_mono_r (a x y : Q) : x <= y -> Py.min a x <= Py.min a y.
Proof.
  intro L.
  destruct (min_spec a x) as [[H1 ->]|[H1 ->]];
    destruct (min_spec a y) as [[H2 ->]|[H2 ->]]; lra.
Qed.

Lemma max_mono_r (a x y : Q) : x <= y -> Py.max a x <= Py.max a y.
Proof.
  intro L.
  destruct (max_spec a x) as [[H1 ->]|[H1 ->]];
    destruct (max_spec a y) as [[H2 ->]|[H2 ->]]; lra.
Qed.

(** Division by a positive literal is multiplication by its inverse; the
    linear-arithmetic procedure wants the latter. *)
Lemma div_literal (x : Q) (p : positive) : x / (Zpos p # 1) = x * (1 # p).
Proof. reflexivity. Qed.

(** The clamp [max(lo, min(hi, x))] stays between its bounds, is the
    identity inside them, and is monotone. *)
Lemma clamp_bounds (lo hi x : Q) :
  lo <= hi -> lo <= Py.max lo (Py.min hi x) <= hi.
Proof.
  intro L. split; [apply max_ge_l|].
  apply max_lub; [exact L | apply min_le_l].
Qed.

Lemma clamp_inside (lo hi x : Q) :
  lo <= x -> x <= hi -> Py.max lo (Py.min hi x) == x.
Proof.
  intros L U.
  destruct (min_spec hi x) as [[H1 E1]|[H1 E1]]; rewrite E1;
    destruct (max_spec lo x) as [[H2 E2]|[H2 E2]];
    destruct (max_spec lo hi) as [[H3 E3]|[H3 E3]];
    rewrite ?E2, ?E3; lra.
Qed.

Lemma clamp_mono (lo hi x y : Q) :
  x <= y -> Py.max lo (Py.min hi x) <= Py.max lo (Py.min hi y).
Proof. intro L. apply max_mono_r, min_mono_r, L. Qed.

(** ** Categories *)

(** C3: [categorize_risk] is a total threshold table.  Every score gets the
    category of the first threshold among 150, 350, 550, 750 it does not
    exceed, and "Very High" above them; the five labels are pairwise
    distinct, so each score has exactly one category; the boundary values
    150, 350, 550 and 750 fall in the lower category. *)
Theorem categorize_risk_table (score : Q) :
  (categorize_risk score = "Very Low"%string <-> score <= 150) /\
  (categorize_risk score = "Low"%string <-> 150 < score /\ score <= 350) /\
  (categorize_risk score = "Medium"%string <-> 350 < score /\ score <= 550) /\
  (categorize_risk score = "High"%string <-> 550 < score /\ score <= 750) /\
  (categorize_risk score = "Very High"%string <-> 750 < score) /\
  categorize_risk 150 = "Very Low"%string /\
  categorize_risk 350 = "Low"%string /\
  categorize_risk 550 = "Medium"%string /\
  categorize_risk 750 = "High"%string.
Proof.
  unfold categorize_risk.
  case_leb score 150;
    [|case_leb score 350; [|case_leb score 550; [|case_leb score 750]]];
    repeat split; intros; try discriminate; try reflexivity; try lra.
Qed.

(** ** Risk components *)

Section Scoring.

Context {RT : Runtime}.

Lemma lookup_map_values (g : Q -> Q) (rc : Components) (c : component) :
  lookup (map_values g rc) c = g (lookup rc c).
Proof. destruct c; reflexivity. Qed.

Lemma inactive_components_perturbed (f : Features) (rng : rng_state) (c : component) :
  lookup (fst (_calculate_inactive_wallet_risk f rng)) c
  = Py.max 0 (Py.min 1 (lookup (base_risks f) c + fst (draw_variation f))).
Proof.
  unfold _calculate_inactive_wallet_risk.
  destruct (draw_variation f) as [variation rng']. simpl.
  apply lookup_map_values.
Qed.

Lemma inactive_components_in_unit (f : Features) (rng : rng_state) (c : component) :
  in_unit (lookup (fst (_calculate_inactive_wallet_risk f rng)) c).
Proof.
  rewrite inactive_components_perturbed. apply clamp_bounds. lra.
Qed.

Lemma active_components_at_most_one (f : Features) (c : component) :
  lookup (active_risk_components f) c <= 1.
Proof. destruct c; simpl; apply min_le_l. Qed.

Lemma active_liquidation_formula (f : Features) :
  liquidation (active_risk_components f) = Py.min 1 (liquidation_signal f).
Proof. reflexivity. Qed.

Lemma active_liquidation_when_nonnegative (f : Features) :
  0 <= liquidation_signal f ->
  liquidation (active_risk_components f) == spec_liquidation_risk f.
Proof.
  intro H. rewrite active_liquidation_formula. unfold spec_liquidation_risk.
  destruct (min_spec 1 (liquidation_signal f)) as [[L E]|[L E]]; rewrite E;
    destruct (max_spec 0 (liquidation_signal f)) as [[L' E']|[L' E']];
    destruct (max_spec 0 1) as [[L2 E2]|[L2 E2]];
    rewrite ?E', ?E2; lra.
Qed.

Lemma active_liquidation_of_model_wallet (f : Features) :
  success_rate f == 1 ->
  days_since_last_tx f = 0%Z ->
  engagement_score f == 1 ->
  activity_decline f == 0 ->
  liquidation (active_risk_components f) == 0.
Proof.
  intros Hs Hd He Ha.
  rewrite active_liquidation_formula. unfold liquidation_signal. rewrite Hd.
  set (m := Py.min 1 (inject_Z 0 / 90)).
  assert (Hm : m == 0) by (vm_compute; reflexivity).
  destruct (min_spec 1 ((3 # 10) * (1 - success_rate f) + (3 # 10) * m
                        + (2 # 10) * (1 - engagement_score f)
                        + (2 # 10) * activity_decline f)) as [[L E]|[L E]];
    rewrite E; lra.
Qed.

(** C10: in the inactive branch one value is drawn, added to each of the
    six base risks and the sum clamped to the unit interval; hence whenever
    one base risk is at most another, the same holds of the two final
    components. *)
Theorem inactive_perturbation_preserves_order
    (f : Features) (rng : rng_state) (i j : component)
    (Hbase : lookup (base_risks f) i <= lookup (base_risks f) j) :
  (exists variation : Q,
     forall c : component,
       lookup (fst (_calculate_inactive_wallet_risk f rng)) c
       = Py.max 0 (Py.min 1 (lookup (base_risks f) c + variation))) /\
  lookup (fst (_calculate_inactive_wallet_risk f rng)) i
  <= lookup (fst (_calculate_inactive_wallet_risk f rng)) j.
Proof.
  split.
  - exists (fst (draw_variation f)). intro c. apply inactive_components_perturbed.
  - rewrite !inactive_components_perturbed. apply clamp_mono. lra.
Qed.

(** ** The inactive branch *)

(** C6: with no transaction on record, a wallet of balance zero has the
    base risks 0.2, 0.1, 0.3, 0.9, 0.1, 0.7, and a wallet of balance 5 has
    the base risks 0.3, 0.2, 0.4, 0.8, 0.2 and the liquidity base
    0.6 * (1 - min(1, 5/10)) = 0.3. *)
Theorem inactive_base_risk_table (f : Features) (Hcount : total_tx_count f = 0%Z) :
  (eth_balance f == 0 ->
   base_risks f =
   {| liquidation := 2 # 10; volatility := 1 # 10; concentration := 3 # 10;
      activity := 9 # 10; leverage := 1 # 10; liquidity := 7 # 10 |}) /\
  (eth_balance f == 5 ->
   liquidation (base_risks f) = 3 # 10 /\
   volatility (base_risks f) = 2 # 10 /\
   concentration (base_risks f) = 4 # 10 /\
   activity (base_risks f) = 8 # 10 /\
   leverage (base_risks f) = 2 # 10 /\
   liquidity (base_risks f) == (6 # 10) * (1 - Py.min 1 (5 / 10)) /\
   liquidity (base_risks f) == 3 # 10).
Proof.
  unfold base_risks. rewrite Hcount. simpl andb.
  split; intro Hbal.
  - apply eqb_eq in Hbal. rewrite Hbal. reflexivity.
  - assert (Hne : Py.eqb (eth_balance f) 0 = false) by (apply eqb_neq; lra).
    assert (Hpos : Py.ltb 0 (eth_balance f) = true) by (apply ltb_lt; lra).
    rewrite Hne, Hpos. simpl.
    repeat (split; [reflexivity|]).
    assert (Hmin : Py.min 1 (eth_balance f / 10) == 1 # 2).
    { destruct (min_spec 1 (eth_balance f / 10)) as [[L E]|[L E]]; rewrite E;
        rewrite div_literal in *; lra. }
    assert (Hlit : Py.min 1 (5 / 10) == 1 # 2) by (vm_compute; reflexivity).
    split; lra.
Qed.

(** ** The composite score *)

Lemma weighted_score_sum (rc : Components) :
  weighted_score rc ==
  liquidation rc * (25 # 100) + volatility rc * (20 # 100)
  + concentration rc * (15 # 100) + activity rc * (15 # 100)
  + leverage rc * (15 # 100) + liquidity rc * (10 # 100).
Proof. unfold weighted_score, Py.sum. simpl. lra. Qed.

Lemma weighted_score_in_unit (rc : Components) :
  (forall c, in_unit (lookup rc c)) -> in_unit (weighted_score rc).
Proof.
  intro H. unfold in_unit. rewrite weighted_score_sum.
  pose proof (H liquidation_risk). pose proof (H volatility_risk).
  pose proof (H concentration_risk). pose proof (H activity_risk).
  pose proof (H leverage_risk). pose proof (H liquidity_risk).
  unfold in_unit in *. simpl in *. lra.
Qed.

Lemma composite_score_bounds (rc : Components) (f : Features) :
  0 <= calculate_composite_score rc f <= 1000.
Proof. unfold calculate_composite_score. apply clamp_bounds. lra. Qed.

Lemma inactive_composite_score (rc : Components) (f : Features) :
  is_active_wallet f = false ->
  (forall c, in_unit (lookup rc c)) ->
  calculate_composite_score rc f == 200 + weighted_score rc * 500 /\
  200 <= calculate_composite_score rc f <= 700.
Proof.
  intros Hflag Hrc.
  destruct (weighted_score_in_unit rc Hrc) as [Hlo Hhi].
  assert (E : calculate_composite_score rc f == 200 + weighted_score rc * 500).
  { unfold calculate_composite_score. rewrite Hflag. simpl negb. cbv iota.
    apply clamp_inside; lra. }
  split; [exact E | lra].
Qed.

(** Where the two regimes part: on features flagged inactive, without
    engagement or maturity, the score differs from the active expression
    unless the weighted score is exactly 1/3. *)
Lemma inactive_regime_differs (rc : Components) (f : Features) :
  is_active_wallet f = false ->
  (forall c, in_unit (lookup rc c)) ->
  engagement_score f == 0 ->
  wallet_maturity f == 0 ->
  ~ weighted_score rc == 1 # 3 ->
  ~ calculate_composite_score rc f
    == Py.max 0 (Py.min 1000 (weighted_score rc * 800 + 100
                              - engagement_score f * 100
                              - wallet_maturity f * 50)).
Proof.
  intros Hflag Hrc He Hm Hw Heq.
  destruct (inactive_composite_score rc f Hflag Hrc) as [E _].
  destruct (weighted_score_in_unit rc Hrc) as [Hlo Hhi].
  rewrite clamp_inside in Heq by lra.
  apply Hw. lra.
Qed.

Lemma extracted_activity_flag
    (now : Z) (basic_info : BasicInfo) (transactions : list Transaction)
    (f : Features) :
  extract_comprehensive_features now basic_info transactions = inr f ->
  is_active_wallet f =
  match transactions with [] => false | _ => is_active basic_info end.
Proof.
  unfold extract_comprehensive_features.
  destruct transactions as [|tx rest].
  - intro H. injection H as <-. reflexivity.
  - destruct (filterM _ (tx :: rest)) as [e|successful]; [discriminate|].
    destruct (mapM tx_value_eth (tx :: rest)) as [e|tx_values]; [discriminate|].
    destruct (mapM tx_time (tx :: rest)) as [e|tx_times]; [discriminate|].
    cbn [bind]. destruct tx_times as [|t ts]; intro H; injection H as <-;
      reflexivity.
Qed.

(** C2, as the code has it: the weighted score is the sum of the six
    components times the weights 0.25, 0.20, 0.15, 0.15, 0.15, 0.10; the
    regime is chosen by the flag [is_active_wallet], which extraction sets
    to false when no transaction was fetched and to the snapshot's
    [is_active] otherwise; for a wallet flagged inactive the score of its
    components is 200 + weightedScore * 500 and lies in [200, 700]; for a
    wallet flagged active the score is weightedScore * 800 + 100 -
    engagementScore * 100 - walletMaturity * 50 clamped to [0, 1000]; the
    score always lies in [0, 1000]. *)
Theorem composite_score_spec (rc : Components) (f : Features) (rng : rng_state) :
  weighted_score rc ==
    liquidation rc * (25 # 100) + volatility rc * (20 # 100)
    + concentration rc * (15 # 100) + activity rc * (15 # 100)
    + leverage rc * (15 # 100) + liquidity rc * (10 # 100) /\
  (forall now basic_info transactions f',
     extract_comprehensive_features now basic_info transactions = inr f' ->
     is_active_wallet f' =
     match transactions with [] => false | _ => is_active basic_info end) /\
  (is_active_wallet f = false ->
   let own := fst (calculate_improved_risk_components f rng) in
   calculate_composite_score own f == 200 + weighted_score own * 500 /\
   200 <= calculate_composite_score own f <= 700) /\
  (is_active_wallet f = true ->
   calculate_composite_score rc f =
   Py.max 0 (Py.min 1000 (weighted_score rc * 800 + 100
                          - engagement_score f * 100 - wallet_maturity f * 50))) /\
  0 <= calculate_composite_score rc f <= 1000.
Proof.
  split; [apply weighted_score_sum|].
  split; [exact extracted_activity_flag|].
  split; [|split; [|apply composite_score_bounds]].
  - intros Hflag own. apply inactive_composite_score; [exact Hflag|].
    intro c. subst own. unfold calculate_improved_risk_components.
    rewrite Hflag. simpl negb. cbv iota. apply inactive_components_in_unit.
  - intro Hflag. unfold calculate_composite_score. rewrite Hflag. reflexivity.
Qed.

End Scoring.

(** ** Feature extraction *)

Section Extraction.

Context {RT : Runtime}.

(** C5: with an empty transaction list, whatever the snapshot's activity
    flag, extraction returns the inactive feature shape: the wallet is
    flagged inactive, every transaction-derived field is zero,
    [days_since_last_tx] is 999, [activity_decline] is 1, and the risk
    modifier is the entry of the table 0.3 / 0.6 / 0.8 / 0.5 selected by
    whether the transaction count is zero and whether the balance is zero
    (snapshots carry a non-negative balance and count). *)
Theorem empty_history_gives_inactive_features
    (now : Z) (basic_info : BasicInfo)
    (Hbalance : 0 <= bi_eth_balance basic_info)
    (Hcount : (0 <= bi_total_tx_count basic_info)%Z) :
  exists f : Features,
    extract_comprehensive_features now basic_info [] = inr f /\
    f = _get_inactive_wallet_features basic_info /\
    eth_balance f = bi_eth_balance basic_info /\
    total_tx_count f = bi_total_tx_count basic_info /\
    is_active_wallet f = false /\
    (analyzed_transactions f = 0 /\ successful_transactions f = 0 /\
     failed_transactions f = 0 /\ compound_transactions f = 0 /\
     defi_transactions f = 0 /\ large_tx_count f = 0 /\
     days_since_first_tx f = 0 /\ recent_activity_count f = 0)%Z /\
    (success_rate f = 0 /\ compound_ratio f = 0 /\ defi_ratio f = 0 /\
     total_volume_eth f = 0 /\ avg_tx_value_eth f = 0 /\
     max_tx_value_eth f = 0 /\ volume_volatility f = 0 /\
     large_tx_ratio f = 0 /\ avg_monthly_frequency f = 0 /\
     wallet_maturity f = 0 /\ engagement_score f = 0 /\
     volume_concentration f = 0) /\
    days_since_last_tx f = 999%Z /\
    activity_decline f = 1 /\
    inactive_risk_modifier f =
      Some (match (bi_total_tx_count basic_info =? 0)%Z,
                  Py.eqb (bi_eth_balance basic_info) 0 with
            | true, true => 3 # 10
            | true, false => 6 # 10
            | false, true => 8 # 10
            | false, false => 5 # 10
            end).
Proof.
  eexists. split; [reflexivity|]. split; [reflexivity|].
  repeat match goal with |- _ /\ _ => split end; try reflexivity.
  unfold _get_inactive_wallet_features. cbn [inactive_risk_modifier].
  destruct (bi_total_tx_count basic_info =? 0)%Z eqn:Ez;
    destruct (Py.eqb (bi_eth_balance basic_info) 0) eqn:Eb;
    cbn [andb]; try reflexivity.
  - apply eqb_neq in Eb.
    assert (P : Py.ltb 0 (bi_eth_balance basic_info) = true) by (apply ltb_lt; lra).
    rewrite P. reflexivity.
  - apply Z.eqb_neq in Ez.
    assert (P : (0 <? bi_total_tx_count basic_info)%Z = true) by (apply Z.ltb_lt; lia).
    rewrite P. reflexivity.
  - destruct (0 <? bi_total_tx_count basic_info)%Z; reflexivity.
Qed.

(** Unfolding one successful step of a computation that may raise. *)
Lemma bind_inr {A B} (m : result A) (k : A -> result B) (b : B) :
  bind m k = inr b -> exists a, m = inr a /\ k a = inr b.
Proof. destruct m as [e|a]; simpl; [discriminate|]. intro H. exists a. auto. Qed.

Lemma max_with_one (x : Q) : 1 <= x -> Py.max x 1 = x.
Proof.
  intro H. unfold Py.max.
  assert (E : Py.ltb x 1 = false) by (apply ltb_ge; exact H).
  rewrite E. reflexivity.
Qed.

Lemma extracted_volume_concentration
    (now : Z) (basic_info : BasicInfo) (transactions : list Transaction)
    (f : Features) :
  extract_comprehensive_features now basic_info transactions = inr f ->
  volume_concentration f
  == max_tx_value_eth f / Py.max (total_volume_eth f) 1.
Proof.
  unfold extract_comprehensive_features.
  destruct transactions as [|tx rest].
  - intro H. injection H as <-. simpl. reflexivity.
  - intro H.
    apply bind_inr in H as (successful & _ & H).
    apply bind_inr in H as (tx_values & _ & H).
    apply bind_inr in H as (tx_times & _ & H).
    destruct tx_times as [|t ts]; injection H as <-; simpl;
      destruct tx_values; reflexivity.
Qed.

(** C9, as the code has it: the extracted volume concentration is the
    largest transaction value divided by [max(totalVolume, 1)]; whenever the
    total volume is at least 1 ETH this is the largest value divided by the
    total volume. *)
Theorem volume_concentration_guarded
    (now : Z) (basic_info : BasicInfo) (transactions : list Transaction)
    (f : Features)
    (Hextract : extract_comprehensive_features now basic_info transactions = inr f) :
  volume_concentration f
  == max_tx_value_eth f / Py.max (total_volume_eth f) 1 /\
  (1 <= total_volume_eth f ->
   volume_concentration f == max_tx_value_eth f / total_volume_eth f).
Proof.
  pose proof (extracted_volume_concentration _ _ _ _ Hextract) as H.
  split; [exact H|].
  intro Hvol. rewrite (max_with_one _ Hvol) in H. exact H.
Qed.











End Extraction.

(** ** The orchestrator *)

Section Orchestrator.

Context {RT : Runtime}.
Variable get_wallet_basic_info : string -> result BasicInfo.
Variable fetch_all_transactions :
  string -> rng_state -> result (list Transaction) * rng_state.


End Orchestrator.

(** ** Sample wallets *)

(** Closing a goal about concrete rationals by evaluation. *)
Ltac evaluate :=
  vm_compute;
  first [ reflexivity | discriminate
        | let H := fresh in intro H; discriminate H
        | let H := fresh in intro H; apply H; reflexivity ].

(** C1: the claim that every component lies in [0,1] fails in the active
    branch, which caps each formula at 1 but has no floor at 0 (the inactive
    branch has both).  For a funded wallet whose three transfers were all
    made today the activity decline is -2, and the active branch returns a
    liquidation risk of -1/5 and an activity risk of -3/5. *)
Theorem active_components_leave_unit_interval :
  exists f : Features,
    extract_comprehensive_features (RT := Demo.runtime)
      Demo.now Demo.busy_info Demo.busy_txs = inr f /\
    is_active_wallet f = true /\
    activity_decline f == -2 /\
    forall rng : Z,
      let rc := fst (calculate_improved_risk_components (RT := Demo.runtime) f rng) in
      liquidation rc == -(1 # 5) /\
      activity rc == -(3 # 5) /\
      ~ in_unit (lookup rc liquidation_risk).
Proof.
  eexists. split; [vm_compute; reflexivity|].
  split; [reflexivity|]. split; [evaluate|].
  intros rng rc. split; [evaluate|]. split; [evaluate|].
  intros [Hlo _]. revert Hlo. evaluate.
Qed.

(** C7: the liquidation risk of the active branch is the weighted sum of
    the four signals capped at 1, not clamped to [0,1]: for the wallet with
    three transfers made today the code returns -1/5 where the clamped
    formula gives 0. *)
Theorem active_liquidation_below_specification :
  exists f : Features,
    extract_comprehensive_features (RT := Demo.runtime)
      Demo.now Demo.busy_info Demo.busy_txs = inr f /\
    is_active_wallet f = true /\
    liquidation_signal f == -(1 # 5) /\
    liquidation (active_risk_components f) == -(1 # 5) /\
    spec_liquidation_risk f == 0 /\
    ~ liquidation (active_risk_components f) == spec_liquidation_risk f.
Proof.
  eexists. split; [vm_compute; reflexivity|].
  split; [reflexivity|]. repeat split; evaluate.
Qed.

(** C2 fails as stated: a wallet with three fetched transactions whose
    snapshot shows no balance is flagged inactive; its components are those
    of the inactive calculator and its score is 200 + weightedScore * 500,
    which differs from the expression claimed for a wallet with
    transactions unless the weighted score is exactly 1/3, whatever the
    generator draws.  With the reference generator the score is 444.15
    where the claimed expression gives 490.64. *)
Lemma fetched_wallet_scored_as_inactive :
  exists f : Features,
    extract_comprehensive_features (RT := Demo.runtime)
      Demo.now Demo.drained_info Demo.busy_txs = inr f /\
    analyzed_transactions f = 3%Z /\
    is_active_wallet f = false /\
    (forall (RT : Runtime) (rng : rng_state),
       let rc := fst (calculate_improved_risk_components f rng) in
       calculate_composite_score rc f == 200 + weighted_score rc * 500 /\
       (~ weighted_score rc == 1 # 3 ->
        ~ calculate_composite_score rc f
          == Py.max 0 (Py.min 1000 (weighted_score rc * 800 + 100
                                    - engagement_score f * 100
                                    - wallet_maturity f * 50)))) /\
    forall rng : Z,
      let rc := fst (calculate_improved_risk_components (RT := Demo.runtime) f rng) in
      let claimed :=
        Py.max 0 (Py.min 1000 (weighted_score rc * 800 + 100
                               - engagement_score f * 100
                               - wallet_maturity f * 50)) in
      weighted_score rc == 4883 # 10000 /\
      calculate_composite_score rc f == 8883 # 20 /\
      claimed == 12266 # 25 /\
      ~ calculate_composite_score rc f == claimed.
Proof.
  eexists. split; [vm_compute; reflexivity|].
  split; [reflexivity|]. split; [reflexivity|]. split.
  - intros RT rng rc.
    assert (Hrc : forall c, in_unit (lookup rc c))
      by (intro c; apply inactive_components_in_unit).
    split.
    + apply inactive_composite_score; [reflexivity | exact Hrc].
    + apply inactive_regime_differs;
        [reflexivity | exact Hrc | reflexivity | reflexivity].
  - intros rng rc claimed. repeat split; evaluate.
Qed.


(** C9 fails as stated: a wallet whose only transfer is half an ether has
    total volume 1/2 > 0 and largest value 1/2, so the quotient is 1, but
    the extracted concentration is 1/2. *)
Lemma volume_concentration_below_one_ether :
  exists f : Features,
    extract_comprehensive_features (RT := Demo.runtime)
      Demo.now Demo.small_info Demo.small_txs = inr f /\
    0 < total_volume_eth f /\
    max_tx_value_eth f / total_volume_eth f == 1 /\
    volume_concentration f == 1 # 2 /\
    ~ volume_concentration f == max_tx_value_eth f / total_volume_eth f.
Proof.
  eexists. split; [vm_compute; reflexivity|]. repeat split; evaluate.
Qed.

(** The guarded quotient on the wallet with three 1-ETH transfers. *)
Lemma volume_concentration_guarded_witness :
  { f : Features |
    extract_comprehensive_features (RT := Demo.runtime)
      Demo.now Demo.busy_info Demo.busy_txs = inr f /\
    volume_concentration f
    == max_tx_value_eth f / Py.max (total_volume_eth f) 1 /\
    (1 <= total_volume_eth f ->
     volume_concentration f == max_tx_value_eth f / total_volume_eth f) }.
Proof.
  eexists. split; [vm_compute; reflexivity|].
  apply (volume_concentration_guarded (RT := Demo.runtime)
           Demo.now Demo.busy_info Demo.busy_txs).
  vm_compute; reflexivity.
Defined.

(** Volatility and activity of the never-used wallet keep their order. *)
Lemma inactive_perturbation_preserves_order_witness :
  lookup (base_risks (_get_inactive_wallet_features Demo.unused_info)) volatility_risk
  <= lookup (base_risks (_get_inactive_wallet_features Demo.unused_info)) activity_risk /\
  lookup (fst (_calculate_inactive_wallet_risk (RT := Demo.runtime)
                 (_get_inactive_wallet_features Demo.unused_info) 0%Z))
         volatility_risk
  <= lookup (fst (_calculate_inactive_wallet_risk (RT := Demo.runtime)
                    (_get_inactive_wallet_features Demo.unused_info) 0%Z))
            activity_risk.
Proof.
  assert (H : lookup (base_risks (_get_inactive_wallet_features Demo.unused_info))
                     volatility_risk
              <= lookup (base_risks (_get_inactive_wallet_features Demo.unused_info))
                        activity_risk) by evaluate.
  split; [exact H|].
  exact (proj2 (inactive_perturbation_preserves_order (RT := Demo.runtime)
                  (_get_inactive_wallet_features Demo.unused_info) 0%Z
                  volatility_risk activity_risk H)).
Defined.

(** The base risks of the funded wallet that never transacted. *)
Lemma inactive_base_risk_table_witness :
  total_tx_count (_get_inactive_wallet_features Demo.funded_info) = 0%Z /\
  eth_balance (_get_inactive_wallet_features Demo.funded_info) == 5 /\
  liquidity (base_risks (_get_inactive_wallet_features Demo.funded_info)) == 3 # 10.
Proof.
  split; [reflexivity|]. split; [reflexivity|].
  apply (proj2 (inactive_base_risk_table
                  (_get_inactive_wallet_features Demo.funded_info) eq_refl)).
  reflexivity.
Defined.

(** Extraction for the funded wallet with nothing fetched. *)
Lemma empty_history_gives_inactive_features_witness :
  0 <= bi_eth_balance Demo.funded_info /\
  (0 <= bi_total_tx_count Demo.funded_info)%Z /\
  exists f : Features,
    extract_comprehensive_features (RT := Demo.runtime) Demo.now Demo.funded_info []
    = inr f /\
    days_since_last_tx f = 999%Z /\
    inactive_risk_modifier f = Some (6 # 10).
Proof.
  assert (Hb : 0 <= bi_eth_balance Demo.funded_info) by evaluate.
  assert (Hc : (0 <= bi_total_tx_count Demo.funded_info)%Z) by evaluate.
  split; [exact Hb|]. split; [exact Hc|].
  destruct (empty_history_gives_inactive_features (RT := Demo.runtime)
              Demo.now Demo.funded_info Hb Hc) as (f & Hx & Hf & _).
  exists f. split; [exact Hx|]. subst f. split; reflexivity.
Defined.


(** The seed is taken from [hash], which Python salts per process: the
    same inactive wallet gets other components in another process. *)
Example components_change_with_the_process :
  ~ liquidation (fst (_calculate_inactive_wallet_risk (RT := Demo.runtime)
                        (_get_inactive_wallet_features Demo.funded_info) 0%Z))
    == liquidation (fst (_calculate_inactive_wallet_risk
                           (RT := Demo.runtime_of_another_process)
                           (_get_inactive_wallet_features Demo.funded_info) 0%Z)).
Proof. evaluate. Qed.

(** The balance of a failed lookup is the integer 0 and the balance read
    from a zero result is the float 0.0: equal numbers, but a printer that
    tells them apart gives the two wallets different seeds and different
    components. *)
Example zero_balances_seeded_apart :
  let failed :=
    get_wallet_basic_info (RT := Demo.runtime_printing_as_held)
      (fun _ => raise (OSError "unreachable"))
      (fun _ => raise (OSError "unreachable")) "0xabc" in
  let emptied :=
    get_wallet_basic_info (RT := Demo.runtime_printing_as_held)
      (fun _ => ret {| api_status := Some "1"%string; api_result := Some "0"%string |})
      (fun _ => ret {| api_status := None; api_result := Some "0x0"%string |})
      "0xabc" in
  bi_eth_balance failed == bi_eth_balance emptied /\
  bi_total_tx_count failed = bi_total_tx_count emptied /\
  py_str (Runtime := Demo.runtime_printing_as_held) (bi_eth_balance failed)
  <> py_str (Runtime := Demo.runtime_printing_as_held) (bi_eth_balance emptied) /\
  ~ liquidation (fst (_calculate_inactive_wallet_risk
                        (RT := Demo.runtime_printing_as_held)
                        (_get_inactive_wallet_features failed) 0%Z))
    == liquidation (fst (_calculate_inactive_wallet_risk
                           (RT := Demo.runtime_printing_as_held)
                           (_get_inactive_wallet_features emptied) 0%Z)).
Proof.
  intros failed emptied. split; [evaluate|]. split; [reflexivity|].
  split; evaluate.
Qed.

(** A record without the [isError] key makes extraction raise; the caller
    gets the failure record with the key's name as message. *)
Example analyze_wallet_missing_key :
  fst (analyze_wallet (RT := Demo.runtime)
         (fun _ => ret Demo.small_info)
         (fun _ rng =>
            (ret [{| value := Some "12"%string;
                     timeStamp := Some "1699999000"%string;
                     isError := None;
                     is_compound := None;
                     is_defi := None |}], rng))
         Demo.now "0xabc" 0%Z)
  = {| wallet_address := "0xabc";
       risk_score := 999;
       risk_category := "Analysis Failed";
       analysis_status := "failed";
       error_message := Some "'isError'"%string;
       report := None |}.
Proof. reflexivity. Qed.

(** * Beyond the scoring claims *)

(** ** Address classification *)

Lemma lower_char_idempotent (c : ascii) : lower_char (lower_char c) = lower_char c.
Proof. destruct c as [[] [] [] [] [] [] [] []]; reflexivity. Qed.

Lemma lower_idempotent (s : string) : lower (lower s) = lower s.
Proof.
  induction s as [|c s IH]; simpl; [reflexivity|].
  rewrite lower_char_idempotent, IH. reflexivity.
Qed.

Lemma lower_length (s : string) : String.length (lower s) = String.length s.
Proof. induction s as [|c s IH]; simpl; congruence. Qed.

Lemma eqb_length_mismatch (s t : string) :
  String.length s <> String.length t -> String.eqb s t = false.
Proof.
  intro H. destruct (String.eqb s t) eqn:E; [|reflexivity].
  apply String.eqb_eq in E. subst. contradiction.
Qed.

Lemma str_in_In (x : string) (xs : list string) : str_in x xs = true <-> In x xs.
Proof.
  unfold str_in. rewrite existsb_exists. split.
  - intros (y & Hy & E). apply String.eqb_eq in E. subst. exact Hy.
  - intro H. exists x. split; [exact H | apply String.eqb_refl].
Qed.

(** X1: recognition of a DeFi recipient: an address of the regular length of 42
    characters is recognised exactly when, letter case aside, it is one of
    four routers; the listed Aave V3 entry has 41 characters and matches no
    such address. *)
Theorem defi_address_recognition (a : string) (Hlen : String.length a = 42%nat) :
  _is_defi_transaction a = true <->
  lower a = "0x7a250d5630b4cf539739df2c5dacb4c659f2488d"%string \/
  lower a = "0xe592427a0aece92de3edee1f18e0157c05861564"%string \/
  lower a = "0x7d2768de32b0b80b7a3454c06bdac94a69ddc7a9"%string \/
  lower a = "0x9759a6ac90977b93b58547b4a71c78317f391a28"%string.
Proof.
  unfold _is_defi_transaction. rewrite str_in_In.
  change (map lower defi_protocols) with defi_protocols.
  unfold defi_protocols. simpl In.
  assert (Hbad : "0x87870bace213686c4007994edf9cc3ef4e33e4e"%string <> lower a).
  { intro E. apply (f_equal String.length) in E.
    rewrite lower_length, Hlen in E. discriminate E. }
  split.
  - intros [E|[E|[E|[E|[E|[]]]]]]; auto; contradiction.
  - intros [E|[E|[E|E]]]; rewrite E; auto 6.
Qed.

(** No recipient is both a Compound market and a DeFi router. *)
Lemma compound_and_defi_are_disjoint (a : string) :
  is_compound_address a = true -> _is_defi_transaction a = false.
Proof.
  unfold is_compound_address, _is_defi_transaction.
  rewrite str_in_In. intro H.
  assert (A : forallb (fun c => negb (str_in c (map lower defi_protocols)))
                      (map (fun kv => lower (snd kv)) compound_addresses) = true)
    by reflexivity.
  rewrite forallb_forall in A. apply A in H.
  apply negb_true_iff in H. exact H.
Qed.

Lemma getitem_inr {A} (key : string) (entry : option A) (a : A) :
  getitem key entry = inr a <-> entry = Some a.
Proof.
  unfold getitem, ret, raise.
  destruct entry; split; intro H; try discriminate; congruence.
Qed.

Lemma getitem_inl {A} (key : string) (entry : option A) (e : exn) :
  getitem key entry = inl e <-> entry = None /\ e = KeyError key.
Proof.
  unfold getitem, raise, ret. destruct entry; split.
  - discriminate.
  - intros [H _]. discriminate H.
  - intro H. injection H as <-. auto.
  - intros [_ ->]. reflexivity.
Qed.

Section ClassificationFacts.

Context {RT : Runtime}.

(** The three ways out of [classify_transaction]. *)
Lemma classify_transaction_cases (tx : ExplorerTx) :
  classify_transaction tx =
  match tx_to tx with
  | None => inl (KeyError "to")
  | Some a =>
    match value (tx_body tx) with
    | None => inl (KeyError "value")
    | Some s =>
      match py_int s with
      | inl e => inl e
      | inr v =>
          inr (set_tx_type
                 (set_is_defi (set_is_compound tx (is_compound_address a))
                              (_is_defi_transaction a))
                 (expected_label (is_compound_address a)
                                 (_is_defi_transaction a) v))
      end
    end
  end.
Proof.
  unfold classify_transaction, _classify_transaction_type, expected_label.
  destruct (tx_to tx) as [a|] eqn:Ha; [|reflexivity].
  simpl. rewrite Ha. simpl.
  destruct (value (tx_body tx)) as [s|]; [|reflexivity]. simpl.
  destruct (py_int s) as [e|v]; [reflexivity|]. simpl.
  destruct (is_compound_address a); [reflexivity|]. simpl.
  destruct (_is_defi_transaction a); [reflexivity|]. simpl.
  destruct (v =? 0)%Z; [reflexivity|].
  destruct (0 <? v)%Z; reflexivity.
Qed.

(** X2: classification of one record, when it succeeds: the record keeps its
    recipient, value, time stamp and error flag; both flags are set from
    the recipient and are never both true; the label is "compound" for a
    Compound recipient, else "defi" for a DeFi recipient, else decided by
    the sign of the value, "unknown" standing for a negative value only. *)
Theorem classify_transaction_result (tx tx' : ExplorerTx)
    (Hok : classify_transaction tx = inr tx') :
  exists (a s : string) (v : Z),
    tx_to tx = Some a /\
    value (tx_body tx) = Some s /\
    py_int s = inr v /\
    tx_to tx' = Some a /\
    value (tx_body tx') = Some s /\
    timeStamp (tx_body tx') = timeStamp (tx_body tx) /\
    isError (tx_body tx') = isError (tx_body tx) /\
    is_compound (tx_body tx') = Some (is_compound_address a) /\
    is_defi (tx_body tx') = Some (_is_defi_transaction a) /\
    is_compound_address a && _is_defi_transaction a = false /\
    tx_type tx' =
      Some (expected_label (is_compound_address a) (_is_defi_transaction a) v) /\
    (tx_type tx' = Some "unknown"%string -> (v < 0)%Z).
Proof.
  rewrite classify_transaction_cases in Hok.
  destruct (tx_to tx) as [a|] eqn:Ha; [|discriminate].
  destruct (value (tx_body tx)) as [s|] eqn:Hs; [|discriminate].
  destruct (py_int s) as [e|v] eqn:Hv; [discriminate|].
  injection Hok as <-.
  assert (Hdisj : is_compound_address a && _is_defi_transaction a = false).
  { destruct (is_compound_address a) eqn:C; [|reflexivity].
    rewrite (compound_and_defi_are_disjoint a C). reflexivity. }
  exists a, s, v. simpl.
  repeat (split; [first [assumption | reflexivity]|]).
  unfold expected_label.
  destruct (is_compound_address a); [discriminate|].
  destruct (_is_defi_transaction a); [discriminate|].
  destruct (v =? 0)%Z eqn:E0; [discriminate|].
  destruct (0 <? v)%Z eqn:E1; [discriminate|].
  intros _. apply Z.eqb_neq in E0. apply Z.ltb_ge in E1. lia.
Qed.

(** X3: classification of one record raises exactly when the recipient is
    missing, the value is missing, or the value is not an integer literal;
    a missing recipient is reported first. *)
Theorem classify_transaction_failure (tx : ExplorerTx) (e : exn) :
  classify_transaction tx = inl e <->
  (tx_to tx = None /\ e = KeyError "to") \/
  (tx_to tx <> None /\ value (tx_body tx) = None /\ e = KeyError "value") \/
  (tx_to tx <> None /\
   exists s, value (tx_body tx) = Some s /\ py_int s = inl e).
Proof.
  rewrite classify_transaction_cases.
  destruct (tx_to tx) as [a|].
  - destruct (value (tx_body tx)) as [s|].
    + destruct (py_int s) as [e'|v] eqn:Hv.
      * split.
        -- intro H. injection H as <-. right. right.
           split; [discriminate|]. exists s. auto.
        -- intros [[H _]|[(_ & H & _)|(_ & s' & H & H')]]; try discriminate.
           injection H as <-. rewrite Hv in H'. injection H' as <-. reflexivity.
      * split; [discriminate|].
        intros [[H _]|[(_ & H & _)|(_ & s' & H & H')]]; try discriminate.
        injection H as <-. rewrite Hv in H'. discriminate H'.
    + split.
      * intro H. injection H as <-. right. left.
        split; [discriminate|]. auto.
      * intros [[H _]|[(_ & _ & ->)|(_ & s' & H & _)]];
          [discriminate | reflexivity | discriminate].
  - split.
    + intro H. injection H as <-. left. auto.
    + intros [[_ ->]|[(H & _)|(H & _)]];
        [reflexivity | contradiction | contradiction].
Qed.

End ClassificationFacts.

(** ** Comprehensions that may raise *)

Lemma bind_value {A B} (a : A) (k : A -> result B) : bind (inr a) k = k a.
Proof. reflexivity. Qed.

Lemma mapM_inr {A B} (f : A -> result B) (xs : list A) (ys : list B) :
  mapM f xs = inr ys <-> Forall2 (fun x y => f x = inr y) xs ys.
Proof.
  revert ys. induction xs as [|x xs IH]; intro ys; simpl.
  - split; intro H; [injection H as <-; constructor | inversion H; reflexivity].
  - split.
    + intro H. apply bind_inr in H as (y & Hy & H).
      apply bind_inr in H as (ys' & Hys & H). injection H as <-.
      constructor; [exact Hy | apply IH, Hys].
    + intro H. inversion H as [|x' y xs' ys' Hy Hys]; subst.
      rewrite Hy. simpl. apply IH in Hys. rewrite Hys. reflexivity.
Qed.

Lemma mapM_length {A B} (f : A -> result B) (xs : list A) (ys : list B) :
  mapM f xs = inr ys -> Py.len ys = Py.len xs.
Proof.
  intro H. apply mapM_inr in H. unfold Py.len.
  induction H; simpl; [reflexivity | lia].
Qed.

Lemma mapM_inl {A B} (f : A -> result B) (xs : list A) (e : exn) :
  mapM f xs = inl e -> exists x, In x xs /\ f x = inl e.
Proof.
  induction xs as [|x xs IH]; simpl; [discriminate|].
  destruct (f x) as [e'|y] eqn:Hx; simpl.
  - intro H. injection H as <-. exists x. auto.
  - destruct (mapM f xs) as [e'|ys]; simpl; [|discriminate].
    intro H. injection H as <-.
    destruct (IH eq_refl) as (x' & Hin & Hx'). exists x'. auto.
Qed.

Lemma mapM_inl_or_value {A B} (f : A -> result B) (xs : list A) (ys : list B) :
  mapM f xs = inr ys -> forall x, In x xs -> exists y, f x = inr y.
Proof.
  intro H. apply mapM_inr in H.
  induction H as [|x y xs ys Hxy _ IH]; intros x' Hin; [destruct Hin|].
  destruct Hin as [<-|Hin]; [eauto | apply IH, Hin].
Qed.

Lemma mapM_defined {A B} (f : A -> result B) (xs : list A) :
  (forall x, In x xs -> exists y, f x = inr y) -> exists ys, mapM f xs = inr ys.
Proof.
  induction xs as [|x xs IH]; intro H; simpl; [eexists; reflexivity|].
  destruct (H x (or_introl eq_refl)) as (y & Hy).
  destruct IH as (ys & Hys); [intros; apply H; right; assumption|].
  rewrite Hy, Hys. simpl. eexists; reflexivity.
Qed.

Lemma filterM_inr {A} (p : A -> result bool) (xs ys : list A) :
  filterM p xs = inr ys ->
  (forall x, In x xs -> exists b, p x = inr b) /\
  (0 <= Py.len ys <= Py.len xs)%Z.
Proof.
  unfold Py.len. revert ys. induction xs as [|x xs IH]; intro ys; simpl.
  - intro H. injection H as <-. split; [intros x []|simpl; lia].
  - intro H. apply bind_inr in H as (b & Hb & H).
    apply bind_inr in H as (ys' & Hys & H). injection H as <-.
    destruct (IH _ Hys) as [Hall Hlen]. split.
    + intros x' [<-|Hin]; [exists b; exact Hb | apply Hall, Hin].
    + destruct b; simpl; lia.
Qed.

Lemma filterM_inl {A} (p : A -> result bool) (xs : list A) (e : exn) :
  filterM p xs = inl e -> exists x, In x xs /\ p x = inl e.
Proof.
  induction xs as [|x xs IH]; simpl; [discriminate|].
  destruct (p x) as [e'|b] eqn:Hx; simpl.
  - intro H. injection H as <-. exists x. auto.
  - destruct (filterM p xs) as [e'|ys]; simpl; [|discriminate].
    intro H. injection H as <-.
    destruct (IH eq_refl) as (x' & Hin & Hx'). exists x'. auto.
Qed.

Lemma filterM_defined {A} (p : A -> result bool) (xs : list A) :
  (forall x, In x xs -> exists b, p x = inr b) -> exists ys, filterM p xs = inr ys.
Proof.
  induction xs as [|x xs IH]; intro H; simpl; [eexists; reflexivity|].
  destruct (H x (or_introl eq_refl)) as (b & Hb).
  destruct IH as (ys & Hys); [intros; apply H; right; assumption|].
  rewrite Hb, Hys. simpl. eexists; reflexivity.
Qed.

Lemma filter_len (A : Type) (p : A -> bool) (xs : list A) :
  (0 <= Py.len (filter p xs) <= Py.len xs)%Z.
Proof.
  unfold Py.len. induction xs as [|x xs IH]; simpl; [lia|].
  destruct (p x); simpl; lia.
Qed.

(** ** Which inputs extraction accepts *)

Lemma returns_true {A} (m : result A) : returns m = true <-> exists a, m = inr a.
Proof.
  destruct m as [e|a]; simpl; split.
  - discriminate.
  - intros (a & H). discriminate H.
  - eauto.
  - reflexivity.
Qed.

(** When the true division of integers returns. *)
Lemma py_truediv_inr (a b : Z) (q : Q) :
  py_truediv a b = inr q <->
  Qabs (inject_Z a / inject_Z b) < float_overflow_bound /\
  q = inject_Z a / inject_Z b.
Proof.
  unfold py_truediv.
  destruct (Qle_bool float_overflow_bound (Qabs (inject_Z a / inject_Z b))) eqn:E.
  - apply Qle_bool_iff in E. split; [discriminate|].
    intros [H _]. exfalso. apply (Qlt_not_le _ _ H E).
  - apply leb_gt in E. split.
    + intro H. injection H as <-. auto.
    + intros [_ ->]. reflexivity.
Qed.

Lemma py_truediv_inl (a b : Z) (e : exn) :
  py_truediv a b = inl e <->
  float_overflow_bound <= Qabs (inject_Z a / inject_Z b) /\
  e = OverflowError "integer division result too large for a float".
Proof.
  unfold py_truediv.
  destruct (Qle_bool float_overflow_bound (Qabs (inject_Z a / inject_Z b))) eqn:E.
  - apply Qle_bool_iff in E. split.
    + intro H. injection H as <-. auto.
    + intros [_ ->]. reflexivity.
  - apply leb_gt in E. split; [discriminate|].
    intros [H _]. exfalso. apply (Qlt_not_le _ _ E H).
Qed.

Section ExtractionBehaviour.

Context {RT : Runtime}.

Lemma int_field_true (entry : option string) :
  int_field entry = true <-> exists s z, entry = Some s /\ py_int s = inr z.
Proof.
  unfold int_field. destruct entry as [s|].
  - rewrite returns_true. split.
    + intros (z & H). eauto.
    + intros (s' & z & H & H'). injection H as <-. eauto.
  - split; [discriminate|]. intros (s & z & H & _). discriminate H.
Qed.

(** The steps of the two element expressions. *)
Lemma tx_value_eth_inr (tx : Transaction) (q : Q) :
  tx_value_eth tx = inr q <->
  exists s v, value tx = Some s /\ py_int s = inr v /\
              py_truediv v (10 ^ 18) = inr q.
Proof.
  unfold tx_value_eth. split.
  - intro H. apply bind_inr in H as (s & Hs & H). apply getitem_inr in Hs.
    apply bind_inr in H as (v & Hv & H). eauto.
  - intros (s & v & Hs & Hv & H). rewrite Hs. simpl. rewrite Hv. exact H.
Qed.

Lemma tx_time_inr (tx : Transaction) (t : Z) :
  tx_time tx = inr t <->
  exists s n, timeStamp tx = Some s /\ py_int s = inr n /\
              fromtimestamp n = inr t.
Proof.
  unfold tx_time. split.
  - intro H. apply bind_inr in H as (s & Hs & H). apply getitem_inr in Hs.
    apply bind_inr in H as (n & Hn & H). eauto.
  - intros (s & n & Hs & Hn & H). rewrite Hs. simpl. rewrite Hn. exact H.
Qed.

Lemma tx_value_eth_inl (tx : Transaction) (e : exn) :
  tx_value_eth tx = inl e <->
  (value tx = None /\ e = KeyError "value") \/
  (exists s, value tx = Some s /\ py_int s = inl e) \/
  (exists s v, value tx = Some s /\ py_int s = inr v /\
               py_truediv v (10 ^ 18) = inl e).
Proof.
  unfold tx_value_eth. destruct (value tx) as [s|]; simpl.
  - destruct (py_int s) as [e'|v] eqn:Hv; simpl; split.
    + intro H. injection H as <-. right. left. eauto.
    + intros [[H _]|[(s' & H & H')|(s' & v & H & H' & _)]];
        [discriminate H | | ]; injection H as <-; congruence.
    + intro H. right. right. eauto.
    + intros [[H _]|[(s' & H & H')|(s' & v' & H & H' & H2)]];
        [discriminate H | | ]; injection H as <-; congruence.
  - split.
    + intro H. injection H as <-. auto.
    + intros [[_ ->]|[(s & H & _)|(s & v & H & _)]];
        [reflexivity | discriminate H | discriminate H].
Qed.

Lemma tx_time_inl (tx : Transaction) (e : exn) :
  tx_time tx = inl e <->
  (timeStamp tx = None /\ e = KeyError "timeStamp") \/
  (exists s, timeStamp tx = Some s /\ py_int s = inl e) \/
  (exists s n, timeStamp tx = Some s /\ py_int s = inr n /\
               fromtimestamp n = inl e).
Proof.
  unfold tx_time. destruct (timeStamp tx) as [s|]; simpl.
  - destruct (py_int s) as [e'|n] eqn:Hn; simpl; split.
    + intro H. injection H as <-. right. left. eauto.
    + intros [[H _]|[(s' & H & H')|(s' & n & H & H' & _)]];
        [discriminate H | | ]; injection H as <-; congruence.
    + intro H. right. right. eauto.
    + intros [[H _]|[(s' & H & H')|(s' & n' & H & H' & H2)]];
        [discriminate H | | ]; injection H as <-; congruence.
  - split.
    + intro H. injection H as <-. auto.
    + intros [[_ ->]|[(s & H & _)|(s & n & H & _)]];
        [reflexivity | discriminate H | discriminate H].
Qed.

Lemma readable_spec (tx : Transaction) :
  readable tx = true <->
  (exists e, isError tx = Some e) /\
  (exists s v,
     value tx = Some s /\ py_int s = inr v /\
     Qabs (inject_Z v / inject_Z (10 ^ 18)) < float_overflow_bound) /\
  (exists s n t,
     timeStamp tx = Some s /\ py_int s = inr n /\ fromtimestamp n = inr t).
Proof.
  unfold readable. rewrite !andb_true_iff, !returns_true.
  split.
  - intros [[He (q & Hq)] (t & Ht)].
    split; [destruct (isError tx); [eauto | discriminate He]|].
    apply tx_value_eth_inr in Hq as (s & v & Hs & Hv & Hq).
    apply py_truediv_inr in Hq as [Hq _].
    apply tx_time_inr in Ht as (s' & n & Hs' & Hn & Ht).
    split; [exists s, v; auto | exists s', n, t; auto].
  - intros ((e & He) & (s & v & Hs & Hv & Hq) & (s' & n & t & Hs' & Hn & Ht)).
    rewrite He. split; [split; [reflexivity|]|].
    + eexists. apply tx_value_eth_inr. exists s, v.
      split; [exact Hs|]. split; [exact Hv|].
      apply py_truediv_inr. split; [exact Hq | reflexivity].
    + exists t. apply tx_time_inr. eauto.
Qed.

(** X4: extraction returns a feature vector exactly when every transaction
    is readable (which the empty list satisfies): it has an [isError] key,
    a value that [int] reads and whose quotient by [10**18] is below the
    overflow bound of floats, and a time stamp that [int] reads and
    [datetime.fromtimestamp] accepts. *)
Theorem extraction_succeeds_iff_readable
    (now : Z) (basic_info : BasicInfo) (transactions : list Transaction) :
  ((exists f, extract_comprehensive_features now basic_info transactions = inr f)
   <-> forallb readable transactions = true) /\
  (forall tx,
     readable tx = true <->
     (exists e, isError tx = Some e) /\
     (exists s v,
        value tx = Some s /\ py_int s = inr v /\
        Qabs (inject_Z v / inject_Z (10 ^ 18)) < float_overflow_bound) /\
     (exists s n t,
        timeStamp tx = Some s /\ py_int s = inr n /\ fromtimestamp n = inr t)).
Proof.
  split; [|exact readable_spec].
  rewrite forallb_forall.
  destruct transactions as [|tx rest]; [split; [intros _ x []|eexists; reflexivity]|].
  set (txs := tx :: rest). split.
  - intros (f & H) x Hin. unfold extract_comprehensive_features in H. fold txs in H.
    apply bind_inr in H as (succ & Hs & H).
    apply bind_inr in H as (vals & Hv & H).
    apply bind_inr in H as (times & Ht & _).
    unfold readable. rewrite !andb_true_iff, !returns_true.
    apply filterM_inr in Hs as [Hs _]. destruct (Hs x Hin) as (b & Hb).
    apply bind_inr in Hb as (e & He & _). apply getitem_inr in He.
    rewrite He. split; [split; [reflexivity|]|].
    + exact (mapM_inl_or_value _ _ _ Hv x Hin).
    + exact (mapM_inl_or_value _ _ _ Ht x Hin).
  - intro Hall.
    assert (Hr : forall x, In x txs ->
                 (exists e, isError x = Some e) /\
                 (exists q, tx_value_eth x = inr q) /\
                 (exists t, tx_time x = inr t)).
    { intros x Hin. specialize (Hall x Hin). unfold readable in Hall.
      rewrite !andb_true_iff, !returns_true in Hall.
      destruct Hall as [[He Hq] Ht].
      split; [destruct (isError x); [eauto | discriminate He]|]. auto. }
    unfold extract_comprehensive_features. fold txs.
    destruct (filterM_defined
                (fun tx => e <- getitem "isError" (isError tx) ;; ret (String.eqb e "0"))
                txs) as (succ & Hs).
    { intros x Hin. destruct (Hr x Hin) as ((e & He) & _). rewrite He. eexists; reflexivity. }
    destruct (mapM_defined tx_value_eth txs) as (vals & Hv).
    { intros x Hin. apply (Hr x Hin). }
    destruct (mapM_defined tx_time txs) as (times & Ht).
    { intros x Hin. apply (Hr x Hin). }
    rewrite Hs, bind_value. cbv beta zeta.
    rewrite Hv, bind_value. cbv beta zeta.
    rewrite Ht, bind_value. cbv beta.
    destruct times; eexists; reflexivity.
Qed.

End ExtractionBehaviour.


Section ExtractionInvariants.

Context {RT : Runtime}.

(** Rational facts used for the feature fields. *)
Lemma ratio_in_unit (a b : Z) :
  (0 <= a <= b)%Z -> (0 < b)%Z -> in_unit (inject_Z a / inject_Z b).
Proof.
  intros Ha Hb. destruct b as [|p|p]; try lia.
  unfold in_unit, Qle, Qdiv, Qmult, Qinv, inject_Z. simpl. lia.
Qed.

Lemma div_nonneg (a b : Q) : 0 <= a -> 0 < b -> 0 <= a / b.
Proof.
  intros Ha Hb. apply Qle_shift_div_l; [exact Hb|]. lra.
Qed.

Lemma div_le (a b c : Q) : 0 < b -> a <= c * b -> a / b <= c.
Proof. intros Hb H. apply Qle_shift_div_r; assumption. Qed.

Lemma inject_Z_le (a b : Z) : (a <= b)%Z -> inject_Z a <= inject_Z b.
Proof. intro H. rewrite <- Zle_Qle. exact H. Qed.

Lemma inject_Z_pos (a : Z) : (0 < a)%Z -> 0 < inject_Z a.
Proof. intro H. change 0 with (inject_Z 0). rewrite <- Zlt_Qlt. exact H. Qed.

Lemma len_nonneg {A} (xs : list A) : (0 <= Py.len xs)%Z.
Proof. unfold Py.len. lia. Qed.

Lemma len_cons {A} (x : A) (xs : list A) : (0 < Py.len (x :: xs))%Z.
Proof. unfold Py.len. simpl. lia. Qed.

Lemma len_nil_inv {A} (xs : list A) : Py.len xs = 0%Z -> xs = [].
Proof. unfold Py.len. destruct xs; simpl; [reflexivity | lia]. Qed.

Ltac fields :=
  cbn [eth_balance total_tx_count is_active_wallet analyzed_transactions
       successful_transactions failed_transactions success_rate
       compound_transactions defi_transactions compound_ratio defi_ratio
       total_volume_eth avg_tx_value_eth max_tx_value_eth volume_volatility
       large_tx_count large_tx_ratio days_since_first_tx days_since_last_tx
       avg_monthly_frequency recent_activity_count activity_decline
       wallet_maturity engagement_score volume_concentration
       inactive_risk_modifier].

(** Opening a successful extraction from a non-empty list: the three
    comprehensions returned, and the features are the assembled record. *)
Ltac open_extraction H tx rest txs succ vals times Hs Hv Ht :=
  unfold extract_comprehensive_features in H;
  pose proof (len_cons tx rest);
  remember (tx :: rest) as txs;
  apply bind_inr in H as (succ & Hs & H);
  apply bind_inr in H as (vals & Hv & H);
  apply bind_inr in H as (times & Ht & H);
  unfold ret in H;
  apply filterM_inr in Hs as [_ Hs];
  pose proof (mapM_length _ _ _ Hv);
  pose proof (mapM_length _ _ _ Ht);
  let t := fresh "t" in
  let ts := fresh "ts" in
  destruct times as [|t ts];
  [exfalso; unfold Py.len in *; simpl in *; lia|];
  cbv beta iota zeta in H;
  remember (t :: ts) as times;
  injection H as <-;
  fields.

(** Recording the length bounds of every filtered list in the goal. *)
Ltac note_filters :=
  repeat match goal with
  | |- context [Py.len (filter ?p ?l)] =>
      let H := fresh in
      let k := fresh "k" in
      pose proof (filter_len _ p l) as H;
      set (k := Py.len (filter p l)) in *
  end.

(** The counts and rates of an extracted feature vector, in terms of each
    other. *)
Lemma extraction_facts
    (now : Z) (basic_info : BasicInfo) (transactions : list Transaction)
    (f : Features) :
  extract_comprehensive_features now basic_info transactions = inr f ->
  analyzed_transactions f = Py.len transactions /\
  (0 <= successful_transactions f <= analyzed_transactions f)%Z /\
  failed_transactions f
  = (analyzed_transactions f - successful_transactions f)%Z /\
  (0 <= compound_transactions f <= analyzed_transactions f)%Z /\
  (0 <= defi_transactions f <= analyzed_transactions f)%Z /\
  (0 <= large_tx_count f <= analyzed_transactions f)%Z /\
  (0 <= recent_activity_count f <= analyzed_transactions f)%Z /\
  success_rate f
  == inject_Z (successful_transactions f)
     / inject_Z (Z.max (analyzed_transactions f) 1) /\
  compound_ratio f
  == inject_Z (compound_transactions f)
     / inject_Z (Z.max (analyzed_transactions f) 1) /\
  defi_ratio f
  == inject_Z (defi_transactions f)
     / inject_Z (Z.max (analyzed_transactions f) 1) /\
  large_tx_ratio f
  == inject_Z (large_tx_count f)
     / inject_Z (Z.max (analyzed_transactions f) 1) /\
  engagement_score f
  == inject_Z (compound_transactions f + defi_transactions f)
     / inject_Z (Z.max (analyzed_transactions f) 1) /\
  activity_decline f
  == 1 - inject_Z (recent_activity_count f)
         / Py.max (inject_Z (analyzed_transactions f) / 12) 1 /\
  wallet_maturity f <= 1.
Proof.
  intro H. destruct transactions as [|tx rest].
  - injection H as <-. fields.
    repeat split; try reflexivity; try (unfold Py.len; simpl; lia); evaluate.
  - open_extraction H tx rest txs succ vals times Hs Hv Ht.
    note_filters.
    repeat match goal with |- _ /\ _ => split end;
      try reflexivity; try lia; apply min_le_l.
Qed.

(** X5: when extraction raises, the exception is that of the first of the
    three comprehensions that fails: a missing [isError] anywhere in the
    list is reported before any problem with a value (a missing key, the
    exception of [int], or the overflow of the quotient by [10**18]), and a
    problem with a value before any problem with a time stamp (a missing
    key, the exception of [int], or that of [datetime.fromtimestamp]). *)
Theorem extraction_failure_report
    (now : Z) (basic_info : BasicInfo) (transactions : list Transaction) (e : exn)
    (Hraise : extract_comprehensive_features now basic_info transactions = inl e) :
  (e = KeyError "isError" /\
   exists tx, In tx transactions /\ isError tx = None) \/
  ((forall tx, In tx transactions -> isError tx <> None) /\
   exists tx, In tx transactions /\
     ((value tx = None /\ e = KeyError "value") \/
      (exists s, value tx = Some s /\ py_int s = inl e) \/
      (exists s v,
         value tx = Some s /\ py_int s = inr v /\
         float_overflow_bound <= Qabs (inject_Z v / inject_Z (10 ^ 18)) /\
         e = OverflowError "integer division result too large for a float"))) \/
  ((forall tx, In tx transactions ->
      isError tx <> None /\ returns (tx_value_eth tx) = true) /\
   exists tx, In tx transactions /\
     ((timeStamp tx = None /\ e = KeyError "timeStamp") \/
      (exists s, timeStamp tx = Some s /\ py_int s = inl e) \/
      (exists s n,
         timeStamp tx = Some s /\ py_int s = inr n /\ fromtimestamp n = inl e))).
Proof.
  destruct transactions as [|tx0 rest]; [discriminate|].
  unfold extract_comprehensive_features in Hraise.
  set (txs := tx0 :: rest) in *.
  destruct (filterM _ txs) as [e1|succ] eqn:Hs.
  { left. injection Hraise as <-.
    apply filterM_inl in Hs as (tx & Hin & Hx).
    destruct (isError tx) eqn:E; [discriminate|].
    injection Hx as <-. eauto. }
  assert (Herr : forall tx, In tx txs -> isError tx <> None).
  { apply filterM_inr in Hs as [Hs _]. intros tx Hin E.
    destruct (Hs tx Hin) as (b & Hb). rewrite E in Hb. discriminate Hb. }
  cbn [bind] in Hraise.
  destruct (mapM tx_value_eth txs) as [e2|vals] eqn:Hv.
  { right. left. split; [exact Herr|]. injection Hraise as <-.
    apply mapM_inl in Hv as (tx & Hin & Hx). exists tx. split; [exact Hin|].
    apply tx_value_eth_inl in Hx as [Hx|[Hx|(s & v & Hs' & Hv' & Hx)]];
      [left; exact Hx | right; left; exact Hx | right; right].
    apply py_truediv_inl in Hx as [Hx ->]. exists s, v. auto. }
  right. right.
  cbn [bind] in Hraise.
  destruct (mapM tx_time txs) as [e3|times] eqn:Ht.
  2:{ cbn [bind] in Hraise. unfold ret in Hraise.
      destruct times; cbv beta iota zeta in Hraise; discriminate Hraise. }
  injection Hraise as <-. split.
  - intros tx Hin. split; [apply Herr, Hin|].
    apply returns_true. exact (mapM_inl_or_value _ _ _ Hv tx Hin).
  - apply mapM_inl in Ht as (tx & Hin & Hx). exists tx. split; [exact Hin|].
    apply tx_time_inl, Hx.
Qed.

(** X6: the transaction counts of an extracted feature vector are consistent:
    as many were analysed as the list holds, every one is either successful
    or failed, and the Compound, DeFi, large and recent counts are each
    between zero and the number analysed. *)
Theorem extracted_counts_consistent
    (now : Z) (basic_info : BasicInfo) (transactions : list Transaction)
    (f : Features)
    (Hextract : extract_comprehensive_features now basic_info transactions = inr f) :
  analyzed_transactions f = Py.len transactions /\
  (successful_transactions f + failed_transactions f = analyzed_transactions f)%Z /\
  (0 <= successful_transactions f <= analyzed_transactions f)%Z /\
  (0 <= failed_transactions f <= analyzed_transactions f)%Z /\
  (0 <= compound_transactions f <= analyzed_transactions f)%Z /\
  (0 <= defi_transactions f <= analyzed_transactions f)%Z /\
  (0 <= large_tx_count f <= analyzed_transactions f)%Z /\
  (0 <= recent_activity_count f <= analyzed_transactions f)%Z.
Proof.
  destruct (extraction_facts _ _ _ _ Hextract)
    as (Hn & Hs & Hf & Hc & Hd & Hl & Hr & _).
  rewrite Hf. repeat split; try assumption; lia.
Qed.

(** X7: the rates of an extracted feature vector: success rate, Compound
    ratio, DeFi ratio and large-transaction ratio lie in [0,1]; the
    engagement score is the sum of the Compound and DeFi ratios and lies in
    [0,2] (a transaction flagged both ways counts twice); the wallet
    maturity is at most 1. *)
Theorem extracted_rates_bounded
    (now : Z) (basic_info : BasicInfo) (transactions : list Transaction)
    (f : Features)
    (Hextract : extract_comprehensive_features now basic_info transactions = inr f) :
  in_unit (success_rate f) /\
  in_unit (compound_ratio f) /\
  in_unit (defi_ratio f) /\
  in_unit (large_tx_ratio f) /\
  engagement_score f == compound_ratio f + defi_ratio f /\
  0 <= engagement_score f <= 2 /\
  wallet_maturity f <= 1.
Proof.
  destruct (extraction_facts _ _ _ _ Hextract)
    as (Hn & Hs & Hf & Hc & Hd & Hl & Hr & Es & Ec & Ed & El & Ee & _ & Hm).
  assert (Hpos : (0 < Z.max (analyzed_transactions f) 1)%Z) by lia.
  assert (Us : in_unit (success_rate f)).
  { unfold in_unit. rewrite Es. apply ratio_in_unit; lia. }
  assert (Uc : in_unit (compound_ratio f)).
  { unfold in_unit. rewrite Ec. apply ratio_in_unit; lia. }
  assert (Ud : in_unit (defi_ratio f)).
  { unfold in_unit. rewrite Ed. apply ratio_in_unit; lia. }
  assert (Ul : in_unit (large_tx_ratio f)).
  { unfold in_unit. rewrite El. apply ratio_in_unit; lia. }
  assert (Esum : engagement_score f == compound_ratio f + defi_ratio f).
  { rewrite Ee, Ec, Ed, inject_Z_plus. unfold Qdiv. ring. }
  repeat split; try assumption; try apply Us; try apply Uc; try apply Ud;
    try apply Ul; unfold in_unit in *; rewrite Esum; lra.
Qed.

Lemma decline_of_extraction
    (now : Z) (basic_info : BasicInfo) (transactions : list Transaction)
    (f : Features) :
  extract_comprehensive_features now basic_info transactions = inr f ->
  -(11) <= activity_decline f <= 1.
Proof.
  intro Hextract.
  destruct (extraction_facts _ _ _ _ Hextract)
    as (_ & _ & _ & _ & _ & _ & Hr & _ & _ & _ & _ & _ & Ea & _).
  rewrite Ea.
  set (n := analyzed_transactions f) in *.
  set (r := recent_activity_count f) in *.
  set (m := Py.max (inject_Z n / 12) 1).
  assert (Hm1 : 1 <= m) by apply max_ge_r.
  assert (Hm2 : inject_Z n / 12 <= m) by apply max_ge_l.
  rewrite div_literal in Hm2.
  assert (Hr0 : 0 <= inject_Z r) by (change 0 with (inject_Z 0); apply inject_Z_le; lia).
  assert (Hrn : inject_Z r <= inject_Z n) by (apply inject_Z_le; lia).
  assert (Hlo : 0 <= inject_Z r / m) by (apply div_nonneg; lra).
  assert (Hhi : inject_Z r / m <= 12) by (apply div_le; lra).
  lra.
Qed.

(** X8: the activity decline of an extracted feature vector lies in [-11, 1]:
    it is 1 when nothing happened in the last thirty days and falls to -11
    when twelve or more transactions, all recent, were analysed. *)
Theorem activity_decline_range
    (now : Z) (basic_info : BasicInfo) (transactions : list Transaction)
    (f : Features)
    (Hextract : extract_comprehensive_features now basic_info transactions = inr f) :
  -(11) <= activity_decline f <= 1.
Proof.
  destruct (decline_of_extraction _ _ _ _ Hextract) as [Hlo Hhi].
  split; [exact Hlo | exact Hhi].
Qed.

Lemma sum_from_ge (xs : list Q) (a : Q) :
  Forall (fun x => 0 <= x) xs -> a <= fold_left Qplus xs a.
Proof.
  intro H. revert a. induction H as [|x xs Hx _ IH]; intro a; simpl; [lra|].
  specialize (IH (a + x)). lra.
Qed.

Lemma max_le_sum (xs : list Q) (a b : Q) :
  Forall (fun x => 0 <= x) xs -> 0 <= a -> a <= b ->
  0 <= fold_left Py.max xs a /\ fold_left Py.max xs a <= fold_left Qplus xs b.
Proof.
  intro H. revert a b. induction H as [|x xs Hx _ IH]; intros a b Ha Hab; simpl.
  - split; lra.
  - apply IH.
    + pose proof (max_ge_l a x). lra.
    + apply max_lub; lra.
Qed.

Lemma int_of_Some (s : string) (z : Z) : py_int s = inr z -> int_of (Some s) = Some z.
Proof. intro H. unfold int_of. rewrite H. reflexivity. Qed.

Lemma read_values_nonneg (txs : list Transaction) (vals : list Q) :
  mapM tx_value_eth txs = inr vals ->
  forallb value_nonneg txs = true ->
  Forall (fun v => 0 <= v) vals.
Proof.
  intros Hv Hnn. apply mapM_inr in Hv.
  induction Hv as [|x v xs vs Hx _ IH]; [constructor|].
  simpl in Hnn. apply andb_true_iff in Hnn as [Hx0 Hrest].
  constructor; [|apply IH, Hrest].
  apply bind_inr in Hx as (s & Hs & Hx). apply getitem_inr in Hs.
  apply bind_inr in Hx as (z & Hz & Hx).
  apply py_truediv_inr in Hx as [_ ->].
  unfold value_nonneg in Hx0. rewrite Hs, (int_of_Some _ _ Hz) in Hx0.
  apply Z.leb_le in Hx0.
  apply div_nonneg.
  - change 0 with (inject_Z 0). apply inject_Z_le, Hx0.
  - apply inject_Z_pos. reflexivity.
Qed.

Lemma volumes_of_extraction
    (now : Z) (basic_info : BasicInfo) (transactions : list Transaction)
    (f : Features) :
  extract_comprehensive_features now basic_info transactions = inr f ->
  forallb value_nonneg transactions = true ->
  0 <= max_tx_value_eth f <= total_volume_eth f /\
  0 <= avg_tx_value_eth f /\
  in_unit (volume_concentration f).
Proof.
  intros Hextract Hvalues.
  destruct transactions as [|tx rest].
  - injection Hextract as <-. unfold _get_inactive_wallet_features. fields.
    unfold in_unit. repeat split; lra.
  - open_extraction Hextract tx rest txs succ vals times Hs Hv Ht.
    pose proof (read_values_nonneg _ _ Hv Hvalues) as Hnn.
    destruct vals as [|v vs]; [exfalso; unfold Py.len in *; simpl in *; lia|].
    cbv beta iota.
    inversion Hnn as [|v' vs' Hv0 Hvs]; subst v' vs'.
    assert (Hmax : 0 <= Py.max_list v vs /\ Py.max_list v vs <= Py.sum (v :: vs)).
    { unfold Py.max_list, Py.sum. simpl. apply max_le_sum; [exact Hvs | lra | lra]. }
    destruct Hmax as [Hmax0 Hmax1].
    assert (Hsum : 0 <= Py.sum (v :: vs)) by lra.
    pose proof (max_ge_l (Py.sum (v :: vs)) 1) as Hd1.
    pose proof (max_ge_r (Py.sum (v :: vs)) 1) as Hd2.
    repeat split; try assumption.
    + unfold np_mean. apply div_nonneg; [exact Hsum|].
      apply inject_Z_pos. unfold Py.len. simpl. lia.
    + apply div_nonneg; lra.
    + apply div_le; lra.
Qed.

(** X9: the volume figures of an extracted feature vector, when no transaction
    carries a negative value: the largest value is between zero and the
    total volume, the mean value is not negative, and the volume
    concentration lies in [0,1]. *)
Theorem extracted_volume_bounds
    (now : Z) (basic_info : BasicInfo) (transactions : list Transaction)
    (f : Features)
    (Hextract : extract_comprehensive_features now basic_info transactions = inr f)
    (Hvalues : forallb value_nonneg transactions = true) :
  0 <= max_tx_value_eth f <= total_volume_eth f /\
  0 <= avg_tx_value_eth f /\
  in_unit (volume_concentration f).
Proof.
  destruct (volumes_of_extraction _ _ _ _ Hextract Hvalues) as (Hmax & Havg & Hvc).
  split; [exact Hmax|]. split; [exact Havg | exact Hvc].
Qed.

(** ** Where the active formulas stay within bounds *)

Lemma min_one_nonneg (x : Q) : 0 <= x -> 0 <= Py.min 1 x.
Proof. intro H. apply min_glb; lra. Qed.

Lemma min_one_from (lo x : Q) : lo <= 1 -> lo <= x -> lo <= Py.min 1 x.
Proof. intros. apply min_glb; assumption. Qed.

(** The bounds of the six active formulas on a feature vector whose fields
    are in their natural ranges. *)
Lemma active_components_on_sound_features (f : Features) :
  in_unit (success_rate f) ->
  (0 <= days_since_last_tx f)%Z ->
  0 <= engagement_score f <= 1 ->
  -(11) <= activity_decline f ->
  0 <= volume_volatility f ->
  in_unit (large_tx_ratio f) ->
  0 <= volume_concentration f ->
  in_unit (defi_ratio f) ->
  0 <= max_tx_value_eth f ->
  (0 <= failed_transactions f)%Z ->
  in_unit (volatility (active_risk_components f)) /\
  in_unit (concentration (active_risk_components f)) /\
  in_unit (leverage (active_risk_components f)) /\
  in_unit (liquidity (active_risk_components f)) /\
  -(22 # 10) <= liquidation (active_risk_components f) <= 1 /\
  -(33 # 10) <= activity (active_risk_components f) <= 1.
Proof.
  intros [Hs0 Hs1] Hd [He0 He1] Ha Hstd [Hl0 Hl1] Hvc [Hr0 Hr1] Hmx Hfl.
  assert (Hdays : 0 <= inject_Z (days_since_last_tx f))
    by (change 0 with (inject_Z 0); apply inject_Z_le, Hd).
  assert (D90 : 0 <= Py.min 1 (inject_Z (days_since_last_tx f) / 90))
    by (apply min_one_nonneg, div_nonneg; lra).
  assert (D60 : 0 <= Py.min 1 (inject_Z (days_since_last_tx f) / 60))
    by (apply min_one_nonneg, div_nonneg; lra).
  assert (D45 : 0 <= Py.min 1 (inject_Z (days_since_last_tx f) / 45))
    by (apply min_one_nonneg, div_nonneg; lra).
  assert (Vol : 0 <= Py.min 1 (volume_volatility f
                               / Py.max (avg_tx_value_eth f) (1 # 100))).
  { apply min_one_nonneg, div_nonneg; [exact Hstd|].
    pose proof (max_ge_r (avg_tx_value_eth f) (1 # 100)). lra. }
  assert (Lev : 0 <= Py.min 1 (max_tx_value_eth f
                               / Py.max (avg_tx_value_eth f * 5) (1 # 10))).
  { apply min_one_nonneg, div_nonneg; [exact Hmx|].
    pose proof (max_ge_r (avg_tx_value_eth f * 5) (1 # 10)). lra. }
  assert (Fail : 0 <= inject_Z (failed_transactions f)
                      / inject_Z (Z.max (analyzed_transactions f) 1)).
  { apply div_nonneg.
    - change 0 with (inject_Z 0). apply inject_Z_le, Hfl.
    - apply inject_Z_pos. lia. }
  pose proof (min_le_l 1 (inject_Z (analyzed_transactions f) / 50)).
  pose proof (min_le_l 1 (inject_Z (analyzed_transactions f) / 30)).
  pose proof (min_le_l 1 (avg_monthly_frequency f / 5)).
  pose proof (min_le_l 1 (total_volume_eth f / 5)).
  pose proof (min_le_l 1 (eth_balance f / (1 # 10))).
  unfold in_unit, active_risk_components.
  cbn [liquidation volatility concentration activity leverage liquidity].
  repeat match goal with |- _ /\ _ => split end;
    try apply min_le_l; try (apply min_one_nonneg; lra);
    apply min_one_from; lra.
Qed.

Lemma filter_exclusive_len (A : Type) (p q : A -> bool) (xs : list A) :
  forallb (fun x => negb (p x && q x)) xs = true ->
  (Py.len (filter p xs) + Py.len (filter q xs) <= Py.len xs)%Z.
Proof.
  intro H.
  assert (N : (List.length (filter p xs) + List.length (filter q xs)
               <= List.length xs)%nat).
  { induction xs as [|x xs IH]; simpl; [lia|].
    simpl in H. apply andb_true_iff in H as [Hx Hrest]. specialize (IH Hrest).
    destruct (p x), (q x); simpl in *; try discriminate; lia. }
  unfold Py.len. lia.
Qed.

Lemma max_list_le (bound t : Z) (ts : list Z) :
  (t <= bound)%Z -> Forall (fun t' => (t' <= bound)%Z) ts ->
  (max_list t ts <= bound)%Z.
Proof.
  unfold max_list. intros Ht H. revert t Ht.
  induction H as [|x xs Hx _ IH]; intros t Ht; simpl; [exact Ht|].
  apply IH. lia.
Qed.

Lemma read_times_not_in_future (now : Z) (txs : list Transaction) (times : list Z) :
  mapM tx_time txs = inr times ->
  forallb (not_in_future now) txs = true ->
  Forall (fun t => (t <= now)%Z) times.
Proof.
  intros Ht Hnf. apply mapM_inr in Ht.
  induction Ht as [|x t xs ts Hx _ IH]; [constructor|].
  simpl in Hnf. apply andb_true_iff in Hnf as [Hx0 Hrest].
  constructor; [|apply IH, Hrest].
  unfold not_in_future in Hx0. rewrite Hx in Hx0.
  apply Z.leb_le in Hx0. exact Hx0.
Qed.

Lemma sound_fields_of_extraction
    (now : Z) (basic_info : BasicInfo) (transactions : list Transaction)
    (f : Features) :
  extract_comprehensive_features now basic_info transactions = inr f ->
  (forall xs, 0 <= np_std xs) ->
  forallb (not_in_future now) transactions = true ->
  forallb flags_exclusive transactions = true ->
  (compound_transactions f + defi_transactions f <= analyzed_transactions f)%Z /\
  (0 <= days_since_last_tx f)%Z /\
  0 <= volume_volatility f.
Proof.
  intros H Hstd Htimes Hflags. destruct transactions as [|tx rest].
  - injection H as <-. unfold _get_inactive_wallet_features. fields.
    repeat split; try lia; lra.
  - open_extraction H tx rest txs succ vals times Hs Hv Ht.
    split; [apply filter_exclusive_len, Hflags|]. split.
    + pose proof (read_times_not_in_future _ _ _ Ht Htimes) as Hle.
      subst times. inversion Hle as [|t' ts' Ht0 Hts]; subst t' ts'.
      pose proof (max_list_le now _ _ Ht0 Hts).
      unfold days_between, seconds_per_day. apply Z.div_pos; lia.
    + destruct (1 <? Py.len vals)%Z; [apply Hstd | lra].
Qed.

(** X10: on well-formed input (no negative value, no transaction whose
    local date-time, as [datetime.fromtimestamp] gives it, is after the
    reading of [datetime.now()], no transaction flagged both Compound and
    DeFi, a standard deviation that is not negative) four of the six active
    formulas stay in [0,1]: volatility, concentration, leverage and
    liquidity.  The liquidation and activity formulas, which add the
    activity decline, are at most 1 and can fall as low as -2.2 and -3.3
    but no lower. *)
Theorem active_components_on_sound_input
    (now : Z) (basic_info : BasicInfo) (transactions : list Transaction)
    (f : Features)
    (Hextract : extract_comprehensive_features now basic_info transactions = inr f)
    (Hstd : forall xs, 0 <= np_std xs)
    (Hvalues : forallb value_nonneg transactions = true)
    (Htimes : forallb (not_in_future now) transactions = true)
    (Hflags : forallb flags_exclusive transactions = true) :
  in_unit (volatility (active_risk_components f)) /\
  in_unit (concentration (active_risk_components f)) /\
  in_unit (leverage (active_risk_components f)) /\
  in_unit (liquidity (active_risk_components f)) /\
  -(22 # 10) <= liquidation (active_risk_components f) <= 1 /\
  -(33 # 10) <= activity (active_risk_components f) <= 1.
Proof.
  destruct (extraction_facts _ _ _ _ Hextract)
    as (Hn & Hs & Hf & Hc & Hd & Hl & Hr & Es & Ec & Ed & El & Ee & _ & _).
  destruct (sound_fields_of_extraction _ _ _ _ Hextract Hstd Htimes Hflags)
    as (Hcd & Hdays & Hvol).
  destruct (volumes_of_extraction _ _ _ _ Hextract Hvalues) as ([Hmx _] & _ & [Hvc _]).
  destruct (decline_of_extraction _ _ _ _ Hextract) as [Hdec _].
  assert (Hpos : (0 < Z.max (analyzed_transactions f) 1)%Z) by lia.
  apply active_components_on_sound_features; try assumption; try lia.
  - unfold in_unit. rewrite Es. apply ratio_in_unit; lia.
  - rewrite Ee. apply ratio_in_unit; lia.
  - unfold in_unit. rewrite El. apply ratio_in_unit; lia.
  - unfold in_unit. rewrite Ed. apply ratio_in_unit; lia.
Qed.

Lemma exclusive_counts_of_extraction
    (now : Z) (basic_info : BasicInfo) (transactions : list Transaction)
    (f : Features) :
  extract_comprehensive_features now basic_info transactions = inr f ->
  forallb flags_exclusive transactions = true ->
  (compound_transactions f + defi_transactions f <= analyzed_transactions f)%Z.
Proof.
  intros H Hflags. destruct transactions as [|tx rest].
  - injection H as <-. unfold _get_inactive_wallet_features. fields. lia.
  - open_extraction H tx rest txs succ vals times Hs Hv Ht.
    apply filter_exclusive_len, Hflags.
Qed.

End ExtractionInvariants.

(** ** The reported score *)

(** Rounding keeps a number between two integer bounds it lies between. *)
Lemma round_between (x : Q) (lo hi : Z) (nd : nat) :
  inject_Z lo <= x <= inject_Z hi ->
  inject_Z lo <= Py.round x nd <= inject_Z hi.
Proof.
  intros [Hlo Hhi]. unfold Py.round.
  set (scale := (10 ^ Z.of_nat nd)%Z).
  assert (Hscale : (0 < scale)%Z) by (apply Z.pow_pos_nonneg; lia).
  assert (Hs : 0 < inject_Z scale) by (apply inject_Z_pos, Hscale).
  set (y := x * inject_Z scale).
  assert (Ylo : inject_Z (lo * scale) <= y).
  { rewrite inject_Z_mult. unfold y. apply Qmult_le_compat_r; lra. }
  assert (Yhi : y <= inject_Z (hi * scale)).
  { rewrite inject_Z_mult. unfold y. apply Qmult_le_compat_r; lra. }
  assert (Flo : (lo * scale <= Qfloor y)%Z).
  { rewrite <- (Qfloor_Z (lo * scale)). apply Qfloor_resp_le, Ylo. }
  assert (Fhi : (Qfloor y <= hi * scale)%Z).
  { rewrite <- (Qfloor_Z (hi * scale)). apply Qfloor_resp_le, Yhi. }
  pose proof (Qfloor_le y) as Fy.
  set (fl := Qfloor y) in *.
  set (n := if Py.ltb (y - inject_Z fl) (1 # 2) then fl
            else if Py.ltb (1 # 2) (y - inject_Z fl) then (fl + 1)%Z
            else if Z.even fl then fl else (fl + 1)%Z).
  assert (Hn : (lo * scale <= n <= hi * scale)%Z).
  { assert (Up : 1 # 2 <= y - inject_Z fl -> (fl + 1 <= hi * scale)%Z).
    { intro Hfrac.
      assert (Hlt : inject_Z fl < inject_Z (hi * scale)) by lra.
      rewrite <- Zlt_Qlt in Hlt. lia. }
    unfold n. case_ltb (y - inject_Z fl) (1 # 2); [lia|].
    case_ltb (1 # 2) (y - inject_Z fl); [specialize (Up E); lia|].
    destruct (Z.even fl); [lia|]. specialize (Up E). lia. }
  fold n. split.
  - apply Qle_shift_div_l; [exact Hs|].
    rewrite <- inject_Z_mult. apply inject_Z_le. lia.
  - apply Qle_shift_div_r; [exact Hs|].
    rewrite <- inject_Z_mult. apply inject_Z_le. lia.
Qed.

(** The interval a category stands for. *)
Lemma category_interval (s : Q) :
  (categorize_risk s = "Very Low"%string -> s <= 150) /\
  (categorize_risk s = "Low"%string -> 150 < s <= 350) /\
  (categorize_risk s = "Medium"%string -> 350 < s <= 550) /\
  (categorize_risk s = "High"%string -> 550 < s <= 750) /\
  (categorize_risk s = "Very High"%string -> 750 < s).
Proof.
  unfold categorize_risk.
  case_leb s 150;
    [|case_leb s 350; [|case_leb s 550; [|case_leb s 750]]];
    repeat match goal with |- _ /\ _ => split end;
    intro C; try discriminate C; try lra.
Qed.

Section Reporting.

Context {RT : Runtime}.
Variable get_wallet_basic_info : string -> result BasicInfo.
Variable fetch_all_transactions :
  string -> rng_state -> result (list Transaction) * rng_state.

(** The two shapes of the record [analyze_wallet] returns. *)
Lemma analyze_wallet_outcome (now : Z) (address : string) (rng : rng_state) :
  let out :=
    fst (analyze_wallet get_wallet_basic_info fetch_all_transactions
                        now address rng) in
  (exists e, out = failure_record address e) \/
  (exists (f : Features) (rng1 : rng_state) (rep : Report),
     wallet_address out = address /\
     analysis_status out = "success"%string /\
     report out = Some rep /\
     rep_is_active_wallet rep = is_active_wallet f /\
     risk_score out
     = Py.round (calculate_composite_score
                   (fst (calculate_improved_risk_components f rng1)) f) 2 /\
     risk_category out
     = categorize_risk (calculate_composite_score
                          (fst (calculate_improved_risk_components f rng1)) f)).
Proof.
  unfold analyze_wallet, analyze_wallet_body.
  destruct (get_wallet_basic_info address) as [e|basic_info]; simpl.
  { left. eauto. }
  destruct (fetch_all_transactions address rng) as [[e|transactions] rng1]; simpl.
  { left. eauto. }
  destruct (extract_comprehensive_features now basic_info transactions)
    as [e|features]; simpl.
  { left. eauto. }
  right. exists features, rng1.
  destruct (calculate_improved_risk_components features rng1)
    as [risk_components rng2]; simpl.
  eexists. repeat split.
Qed.

(** X11: the score a record reports lies in [0, 1000], and in the closed
    interval of the category it reports: at most 150 for "Very Low",
    [150, 350] for "Low", [350, 550] for "Medium", [550, 750] for "High",
    at least 750 for "Very High".  (The category is taken from the score
    before rounding, so a score reported as 150.0 can carry "Low".) *)
Theorem reported_score_within_category
    (now : Z) (address : string) (rng : rng_state) :
  let out :=
    fst (analyze_wallet get_wallet_basic_info fetch_all_transactions
                        now address rng) in
  0 <= risk_score out <= 1000 /\
  (risk_category out = "Very Low"%string -> risk_score out <= 150) /\
  (risk_category out = "Low"%string -> 150 <= risk_score out <= 350) /\
  (risk_category out = "Medium"%string -> 350 <= risk_score out <= 550) /\
  (risk_category out = "High"%string -> 550 <= risk_score out <= 750) /\
  (risk_category out = "Very High"%string -> 750 <= risk_score out).
Proof.
  intro out.
  destruct (analyze_wallet_outcome now address rng)
    as [(e & He)|(f & rng1 & rep & _ & _ & _ & _ & Hscore & Hcat)];
    fold out in He || fold out in Hscore, Hcat.
  - rewrite He. simpl. repeat split; try discriminate; lra.
  - rewrite Hscore, Hcat.
    set (s := calculate_composite_score _ f).
    pose proof (composite_score_bounds
                  (fst (calculate_improved_risk_components f rng1)) f) as [B0 B1].
    fold s in B0, B1.
    destruct (category_interval s) as (T1 & T2 & T3 & T4 & T5).
    split; [apply (round_between s 0 1000 2); split; assumption|].
    repeat match goal with |- _ /\ _ => split end; intro C.
    + apply T1 in C. apply (round_between s 0 150 2). split; assumption.
    + apply T2 in C. apply (round_between s 150 350 2). unfold inject_Z. split; lra.
    + apply T3 in C. apply (round_between s 350 550 2). unfold inject_Z. split; lra.
    + apply T4 in C. apply (round_between s 550 750 2). unfold inject_Z. split; lra.
    + apply T5 in C. apply (round_between s 750 1000 2). unfold inject_Z. split; lra.
Qed.


(** X12: a wallet reported inactive is scored in the middle band: its reported
    score lies in [200, 700] and its category is "Low", "Medium" or "High",
    never "Very Low" nor "Very High". *)
Theorem inactive_wallet_middle_band
    (now : Z) (address : string) (rng : rng_state) (rep : Report)
    (Hreport :
       report (fst (analyze_wallet get_wallet_basic_info fetch_all_transactions
                                   now address rng)) = Some rep)
    (Hinactive : rep_is_active_wallet rep = false) :
  let out :=
    fst (analyze_wallet get_wallet_basic_info fetch_all_transactions
                        now address rng) in
  200 <= risk_score out <= 700 /\
  (risk_category out = "Low"%string \/
   risk_category out = "Medium"%string \/
   risk_category out = "High"%string).
Proof.
  intro out. fold out in Hreport.
  destruct (analyze_wallet_outcome now address rng)
    as [(e & He)|(f & rng1 & rep' & _ & _ & Hrep & Hflag & Hscore & Hcat)];
    fold out in He || fold out in Hrep, Hscore, Hcat.
  - rewrite He in Hreport. discriminate Hreport.
  - rewrite Hrep in Hreport. injection Hreport as ->.
    rewrite Hinactive in Hflag. symmetry in Hflag.
    rewrite Hscore, Hcat.
    set (rc := fst (calculate_improved_risk_components f rng1)) in *.
    destruct (inactive_composite_score rc f Hflag) as (_ & B0 & B1).
    { intro c. unfold rc, calculate_improved_risk_components.
      rewrite Hflag. simpl negb. cbv iota. apply inactive_components_in_unit. }
    split.
    + apply (round_between _ 200 700 2). unfold inject_Z. split; assumption.
    + unfold categorize_risk.
      set (s := calculate_composite_score rc f) in *.
      case_leb s 150; [exfalso; lra|].
      case_leb s 350; [auto|].
      case_leb s 550; [auto|].
      case_leb s 750; [auto | exfalso; lra].
Qed.

End Reporting.

(** ** Sensitivity of the score *)

Section Sensitivity.

Context {RT : Runtime}.

Lemma base_risks_in_unit (f : Features) (c : component) :
  in_unit (lookup (base_risks f) c).
Proof.
  unfold base_risks, in_unit.
  destruct ((total_tx_count f =? 0)%Z && Py.eqb (eth_balance f) 0);
    [destruct c; simpl; lra|].
  destruct ((total_tx_count f =? 0)%Z && Py.ltb 0 (eth_balance f)) eqn:E.
  - apply andb_true_iff in E as [_ E]. apply ltb_lt in E.
    pose proof (min_le_l 1 (eth_balance f / 10)).
    assert (0 <= Py.min 1 (eth_balance f / 10))
      by (apply min_one_nonneg, div_nonneg; lra).
    destruct c; simpl; lra.
  - destruct ((0 <? total_tx_count f)%Z && Py.eqb (eth_balance f) 0);
      destruct c; simpl; lra.
Qed.

Lemma clamp_shift (b v : Q) :
  in_unit b ->
  b - Qabs v <= Py.max 0 (Py.min 1 (b + v)) <= b + Qabs v.
Proof.
  intros [B0 B1].
  pose proof (Qle_Qabs v) as A1.
  pose proof (Qle_Qabs (- v)) as A2. rewrite Qabs_opp in A2.
  destruct (min_spec 1 (b + v)) as [[L E]|[L E]]; rewrite E;
    [destruct (max_spec 0 (b + v)) as [[L' E']|[L' E']]
    |destruct (max_spec 0 1) as [[L' E']|[L' E']]];
    rewrite E'; lra.
Qed.

(** X13: the perturbation of the inactive branch is bounded in its effect: every
    base risk lies in [0,1], each component ends within |variation| of its
    base risk, and the composite score ends within 500 * |variation| of
    200 + 500 * (weighted sum of the base risks). *)
Theorem inactive_perturbation_bounded
    (f : Features) (rng : rng_state)
    (Hinactive : is_active_wallet f = false) :
  let variation := fst (draw_variation f) in
  let final := fst (calculate_improved_risk_components f rng) in
  (forall c, in_unit (lookup (base_risks f) c)) /\
  (forall c,
     lookup (base_risks f) c - Qabs variation
     <= lookup final c
     <= lookup (base_risks f) c + Qabs variation) /\
  200 + 500 * weighted_score (base_risks f) - 500 * Qabs variation
  <= calculate_composite_score final f
  <= 200 + 500 * weighted_score (base_risks f) + 500 * Qabs variation.
Proof.
  intros variation final.
  assert (Hc : forall c,
             lookup (base_risks f) c - Qabs variation
             <= lookup final c
             <= lookup (base_risks f) c + Qabs variation).
  { intro c. unfold final, calculate_improved_risk_components.
    rewrite Hinactive. simpl negb. cbv iota.
    rewrite inactive_components_perturbed.
    apply clamp_shift, base_risks_in_unit. }
  split; [apply base_risks_in_unit|]. split; [exact Hc|].
  destruct (inactive_composite_score final f Hinactive) as (E & _).
  { intro c. unfold final, calculate_improved_risk_components.
    rewrite Hinactive. simpl negb. cbv iota. apply inactive_components_in_unit. }
  rewrite E, (weighted_score_sum final), (weighted_score_sum (base_risks f)).
  pose proof (Hc liquidation_risk). pose proof (Hc volatility_risk).
  pose proof (Hc concentration_risk). pose proof (Hc activity_risk).
  pose proof (Hc leverage_risk). pose proof (Hc liquidity_risk).
  simpl lookup in *. lra.
Qed.

(** X14: the composite score is monotone: raising any risk component never
    lowers it, and for a wallet flagged active a higher engagement score or
    wallet maturity never raises it. *)
Theorem composite_score_monotone
    (rc rc' : Components) (f f' : Features)
    (Hcomponents : forall c, lookup rc c <= lookup rc' c)
    (Hactive : is_active_wallet f = true)
    (Hactive' : is_active_wallet f' = true)
    (Hengagement : engagement_score f <= engagement_score f')
    (Hmaturity : wallet_maturity f <= wallet_maturity f') :
  calculate_composite_score rc f <= calculate_composite_score rc' f /\
  calculate_composite_score rc f' <= calculate_composite_score rc f.
Proof.
  assert (W : weighted_score rc <= weighted_score rc').
  { rewrite (weighted_score_sum rc), (weighted_score_sum rc').
    pose proof (Hcomponents liquidation_risk). pose proof (Hcomponents volatility_risk).
    pose proof (Hcomponents concentration_risk). pose proof (Hcomponents activity_risk).
    pose proof (Hcomponents leverage_risk). pose proof (Hcomponents liquidity_risk).
    simpl lookup in *. lra. }
  unfold calculate_composite_score. rewrite Hactive, Hactive'. simpl negb. cbv iota.
  split; apply clamp_mono; lra.
Qed.

(** Raising a component never lowers the score of a wallet flagged
    inactive either. *)
Lemma composite_score_monotone_inactive
    (rc rc' : Components) (f : Features) :
  (forall c, lookup rc c <= lookup rc' c) ->
  is_active_wallet f = false ->
  calculate_composite_score rc f <= calculate_composite_score rc' f.
Proof.
  intros Hcomponents Hflag.
  assert (W : weighted_score rc <= weighted_score rc').
  { rewrite (weighted_score_sum rc), (weighted_score_sum rc').
    pose proof (Hcomponents liquidation_risk). pose proof (Hcomponents volatility_risk).
    pose proof (Hcomponents concentration_risk). pose proof (Hcomponents activity_risk).
    pose proof (Hcomponents leverage_risk). pose proof (Hcomponents liquidity_risk).
    simpl lookup in *. lra. }
  unfold calculate_composite_score. rewrite Hflag. simpl negb. cbv iota.
  apply clamp_mono. lra.
Qed.

End Sensitivity.

(** ** The batch driver *)

Section BatchDriver.

Context {W : Type}.
Variable analyze : string -> W -> result AnalysisResult * W.

Lemma process_wallets_cons (wallet : string) (rest : list string)
    (records : list AnalysisResult) (tally : Tally) (w : W) :
  process_wallets analyze (wallet :: rest) (records, tally, w)
  = process_wallets analyze rest
      (records ++ fst (fst (process_wallet analyze wallet tally w)),
       snd (fst (process_wallet analyze wallet tally w)),
       snd (process_wallet analyze wallet tally w)).
Proof.
  unfold process_wallets. simpl.
  destruct (process_wallet analyze wallet tally w) as [[appended tally'] w'].
  reflexivity.
Qed.

Lemma process_wallets_from (wallets : list string)
    (records : list AnalysisResult) (tally : Tally) (w : W) :
  process_wallets analyze wallets (records, tally, w)
  = (records ++ fst (fst (process_wallets analyze wallets ([], tally, w))),
     snd (fst (process_wallets analyze wallets ([], tally, w))),
     snd (process_wallets analyze wallets ([], tally, w))).
Proof.
  revert records tally w.
  induction wallets as [|wallet rest IH]; intros records tally w.
  - simpl. rewrite app_nil_r. reflexivity.
  - rewrite !process_wallets_cons.
    rewrite (IH (records ++ _)), (IH ([] ++ _)). simpl.
    rewrite app_assoc. reflexivity.
Qed.

Lemma process_wallets_app (xs ys : list string)
    (acc : list AnalysisResult * Tally * W) :
  process_wallets analyze (xs ++ ys) acc
  = process_wallets analyze ys (process_wallets analyze xs acc).
Proof. unfold process_wallets. apply fold_left_app. Qed.

Lemma process_batch_as_wallets (wallets : list string) (batch_size : Z)
    (state : list AnalysisResult * Tally * W) (batch_start : Z) :
  process_batch analyze wallets batch_size state batch_start
  = process_wallets analyze
      (py_slice wallets batch_start
                (Z.min (batch_start + batch_size) (Py.len wallets)))
      state.
Proof.
  unfold process_batch. destruct state as [[results tally] w].
  rewrite (process_wallets_from _ results).
  destruct (process_wallets analyze _ ([], tally, w)) as [[batch_results tally'] w'].
  reflexivity.
Qed.

Lemma firstn_add {A} (a c : nat) (xs : list A) :
  firstn (a + c) xs = firstn a xs ++ firstn c (skipn a xs).
Proof.
  revert xs. induction a as [|a IH]; intro xs; simpl; [reflexivity|].
  destruct xs as [|x xs]; simpl.
  - rewrite firstn_nil. reflexivity.
  - rewrite IH. reflexivity.
Qed.

Lemma slice_of_batch {A} (xs : list A) (start size : Z) :
  (0 <= start)%Z -> (0 < size)%Z ->
  py_slice xs start (Z.min (start + size) (Py.len xs))
  = firstn (Z.to_nat size) (skipn (Z.to_nat start) xs).
Proof.
  intros Hs Hb. unfold py_slice, Py.len.
  set (tail := skipn (Z.to_nat start) xs).
  assert (Hlen : List.length tail = (List.length xs - Z.to_nat start)%nat)
    by apply length_skipn.
  destruct (Z.le_gt_cases (start + size) (Z.of_nat (List.length xs))) as [L|L].
  - rewrite Z.min_l by exact L. f_equal. lia.
  - rewrite Z.min_r by lia.
    rewrite (firstn_all2 (n := Z.to_nat size)) by lia.
    apply firstn_all2. lia.
Qed.

Lemma batches_are_a_prefix (wallets : list string) (batch_size : Z) (j : nat)
    (state : list AnalysisResult * Tally * W) :
  (0 < batch_size)%Z ->
  fold_left (process_batch analyze wallets batch_size)
            (map (fun k => (Z.of_nat k * batch_size)%Z) (seq 0 j)) state
  = process_wallets analyze (firstn (j * Z.to_nat batch_size) wallets) state.
Proof.
  intro Hb. induction j as [|j IH].
  - reflexivity.
  - rewrite seq_S, map_app, fold_left_app, IH. simpl.
    rewrite process_batch_as_wallets, slice_of_batch by lia.
    rewrite <- process_wallets_app. f_equal.
    replace (Z.to_nat (Z.of_nat j * batch_size)) with (j * Z.to_nat batch_size)%nat
      by nia.
    replace (Z.to_nat batch_size + j * Z.to_nat batch_size)%nat
      with (j * Z.to_nat batch_size + Z.to_nat batch_size)%nat by lia.
    symmetry. apply firstn_add.
Qed.

Lemma batches_cover (wallets : list string) (batch_size : Z) :
  (0 < batch_size)%Z ->
  firstn (Z.to_nat ((Py.len wallets + batch_size - 1) / batch_size)
          * Z.to_nat batch_size) wallets
  = wallets.
Proof.
  intro Hb. apply firstn_all2. unfold Py.len.
  set (n := Z.of_nat (List.length wallets)).
  assert (Hn : (0 <= n)%Z) by (unfold n; lia).
  pose proof (Z.div_mod (n + batch_size - 1) batch_size ltac:(lia)) as Hdm.
  pose proof (Z.mod_pos_bound (n + batch_size - 1) batch_size Hb) as Hmod.
  assert (Hq : (0 <= (n + batch_size - 1) / batch_size)%Z)
    by (apply Z.div_pos; lia).
  assert (Hcov : (n <= (n + batch_size - 1) / batch_size * batch_size)%Z) by nia.
  apply Nat2Z.inj_le. rewrite Nat2Z.inj_mul, !Z2Nat.id by lia. exact Hcov.
Qed.

(** What the driver computes when it has something to do. *)
Lemma driver_loop (wallets : list string) (batch_size : Z) (w : W) :
  (0 < batch_size)%Z ->
  analyze_wallet_list_batch analyze wallets batch_size w
  = let final :=
      process_wallets analyze wallets
        ([], {| active_count := 0; inactive_count := 0; failed_count := 0 |}, w) in
    if (Py.len (fst (fst final)) =? 0)%Z
    then inl (ZeroDivisionError "division by zero")
    else inr final.
Proof.
  intro Hb. unfold analyze_wallet_list_batch, py_range.
  assert (E0 : (batch_size =? 0)%Z = false) by (apply Z.eqb_neq; lia).
  assert (E1 : (batch_size <? 0)%Z = false) by (apply Z.ltb_ge; lia).
  rewrite E0, E1, batches_are_a_prefix, batches_cover by exact Hb.
  cbv zeta.
  destruct (process_wallets analyze wallets _) as [[results tally] w'].
  reflexivity.
Qed.

Lemma process_wallet_counts (wallet : string) (tally : Tally) (w : W) :
  let out := process_wallet analyze wallet tally w in
  tally_total (snd (fst out)) = (tally_total tally + 1)%Z /\
  (1 <= Py.len (fst (fst out)) <= 2)%Z.
Proof.
  unfold process_wallet, tally_total, Py.len.
  destruct (analyze wallet w) as [[e|result] w']; simpl; [lia|].
  destruct (String.eqb (analysis_status result) "failed"); simpl; [lia|].
  destruct (report result) as [rep|]; simpl; [|lia].
  destruct (rep_is_active_wallet rep); simpl; lia.
Qed.

Lemma process_wallets_counts (wallets : list string) (tally : Tally) (w : W) :
  let out := process_wallets analyze wallets ([], tally, w) in
  tally_total (snd (fst out)) = (tally_total tally + Py.len wallets)%Z /\
  (Py.len wallets <= Py.len (fst (fst out)) <= 2 * Py.len wallets)%Z.
Proof.
  revert tally w. induction wallets as [|wallet rest IH]; intros tally w.
  - simpl. unfold Py.len. simpl. lia.
  - cbv zeta. rewrite process_wallets_cons, process_wallets_from.
    cbn [fst snd].
    destruct (process_wallet_counts wallet tally w) as [T1 L1].
    cbv zeta in T1, L1.
    specialize (IH (snd (fst (process_wallet analyze wallet tally w)))
                   (snd (process_wallet analyze wallet tally w))).
    cbv zeta in IH. destruct IH as [T2 L2].
    rewrite T2, T1.
    unfold Py.len in *. rewrite !length_app. simpl List.length. lia.
Qed.

Lemma driver_needs_positive_size (wallets : list string) (batch_size : Z) (w : W)
    (out : list AnalysisResult * Tally * W) :
  analyze_wallet_list_batch analyze wallets batch_size w = inr out ->
  (0 < batch_size)%Z.
Proof.
  unfold analyze_wallet_list_batch, py_range. intro H.
  destruct (batch_size =? 0)%Z eqn:E0; [discriminate H|].
  destruct (batch_size <? 0)%Z eqn:E1; [discriminate H|].
  apply Z.eqb_neq in E0. apply Z.ltb_ge in E1. lia.
Qed.

(** X15: the driver returns a frame exactly when the batch size is positive and
    there is at least one wallet.  A batch size of zero raises the
    [ValueError] of [range]; a negative batch size, or an empty wallet
    list, leaves no rows and the closing summary raises
    [ZeroDivisionError]. *)
Theorem driver_edge_cases (wallets : list string) (batch_size : Z) (w : W) :
  (batch_size = 0%Z ->
   analyze_wallet_list_batch analyze wallets batch_size w
   = inl (RangeValueError "range() arg 3 must not be zero")) /\
  ((batch_size < 0)%Z \/ ((0 < batch_size)%Z /\ wallets = []) ->
   analyze_wallet_list_batch analyze wallets batch_size w
   = inl (ZeroDivisionError "division by zero")) /\
  ((0 < batch_size)%Z -> wallets <> [] ->
   exists out, analyze_wallet_list_batch analyze wallets batch_size w = inr out).
Proof.
  split; [|split].
  - intros ->. reflexivity.
  - intros [Hneg|[Hpos ->]].
    + unfold analyze_wallet_list_batch, py_range.
      assert (E0 : (batch_size =? 0)%Z = false) by (apply Z.eqb_neq; lia).
      assert (E1 : (batch_size <? 0)%Z = true) by (apply Z.ltb_lt; lia).
      rewrite E0, E1. reflexivity.
    + rewrite driver_loop by exact Hpos. reflexivity.
  - intros Hpos Hne. rewrite driver_loop by exact Hpos. cbv zeta.
    destruct (process_wallets_counts wallets
                {| active_count := 0; inactive_count := 0; failed_count := 0 |} w)
      as [_ [L _]].
    cbv zeta in L.
    assert (Hlen : (0 < Py.len wallets)%Z)
      by (destruct wallets; [contradiction | apply len_cons]).
    destruct (Py.len (fst (fst (process_wallets analyze wallets _))) =? 0)%Z eqn:E.
    + apply Z.eqb_eq in E. lia.
    + eexists. reflexivity.
Qed.

(** X16: batching is transparent: with any two positive batch sizes the driver
    returns the same rows, counters and final state, namely those of
    analysing the wallets one after the other. *)
Theorem batching_is_transparent
    (wallets : list string) (size1 size2 : Z) (w : W)
    (Hsize1 : (0 < size1)%Z) (Hsize2 : (0 < size2)%Z) :
  analyze_wallet_list_batch analyze wallets size1 w
  = analyze_wallet_list_batch analyze wallets size2 w /\
  forall out,
    analyze_wallet_list_batch analyze wallets size1 w = inr out ->
    out = process_wallets analyze wallets
            ([], {| active_count := 0; inactive_count := 0; failed_count := 0 |}, w).
Proof.
  rewrite !driver_loop by assumption. split; [reflexivity|].
  cbv zeta. intros out H.
  destruct (Py.len _ =? 0)%Z; [discriminate H | injection H as <-; reflexivity].
Qed.

(** When every analysis returns a record for its wallet that is either
    failed or carries a report, the inner loop appends that record and
    nothing else. *)
Lemma process_wallets_one_each
    (Hwb : forall wallet w, exists r w',
         analyze wallet w = (inr r, w') /\
         wallet_address r = wallet /\
         (is_failed r = true \/ report r <> None))
    (wallets : list string) (tally : Tally) (w : W) :
  let out := process_wallets analyze wallets ([], tally, w) in
  map wallet_address (fst (fst out)) = wallets /\
  failed_count (snd (fst out))
  = (failed_count tally + Py.len (filter is_failed (fst (fst out))))%Z /\
  active_count (snd (fst out))
  = (active_count tally + Py.len (filter reports_active (fst (fst out))))%Z /\
  Forall (fun r => exists wallet w0, fst (analyze wallet w0) = inr r)
         (fst (fst out)).
Proof.
  revert tally w. induction wallets as [|wallet rest IH]; intros tally w.
  - simpl. unfold Py.len. simpl. repeat split; try lia. constructor.
  - cbv zeta. rewrite process_wallets_cons, process_wallets_from. cbn [fst snd].
    destruct (Hwb wallet w) as (r & w' & Hr & Haddr & Hshape).
    assert (Hone :
      exists t', process_wallet analyze wallet tally w = ([r], t', w') /\
                 failed_count t'
                 = (failed_count tally + (if is_failed r then 1 else 0))%Z /\
                 active_count t'
                 = (active_count tally + (if reports_active r then 1 else 0))%Z).
    { unfold process_wallet, reports_active, is_failed in *. rewrite Hr.
      destruct (String.eqb (analysis_status r) "failed") eqn:Ef;
        [eexists; split; [reflexivity|]; simpl; split; lia|].
      destruct Hshape as [Hf|Hrep]; [discriminate Hf|].
      destruct (report r) as [rep|]; [|contradiction].
      destruct (rep_is_active_wallet rep);
        eexists; (split; [reflexivity|]); simpl; split; lia. }
    destruct Hone as (t' & -> & Hf1 & Ha1). cbn [fst snd].
    specialize (IH t' w'). cbv zeta in IH.
    destruct IH as (Hmap & Hf2 & Ha2 & Hall).
    set (tail := fst (fst (process_wallets analyze rest ([], t', w')))) in *.
    change (([] ++ [r]) ++ tail) with (r :: tail).
    split; [simpl; rewrite Haddr, Hmap; reflexivity|].
    split; [|split].
    + rewrite Hf2, Hf1. simpl filter. unfold Py.len.
      destruct (is_failed r); simpl List.length; lia.
    + rewrite Ha2, Ha1. simpl filter. unfold Py.len.
      destruct (reports_active r); simpl List.length; lia.
    + constructor; [|exact Hall]. exists wallet, w. rewrite Hr. reflexivity.
Qed.

End BatchDriver.

Section BatchOverAnalysis.

Context {RT : Runtime}.
Variable get_wallet_basic_info : string -> result BasicInfo.
Variable fetch_all_transactions :
  string -> rng_state -> result (list Transaction) * rng_state.
Variable clock : nat -> Z.

Lemma categorize_risk_is_not_critical (s : Q) :
  categorize_risk s <> "Critical Error"%string.
Proof.
  unfold categorize_risk.
  destruct (Qle_bool s 150); [discriminate|].
  destruct (Qle_bool s 350); [discriminate|].
  destruct (Qle_bool s 550); [discriminate|].
  destruct (Qle_bool s 750); discriminate.
Qed.

Lemma analyze_in_run_behaves (wallet : string) (state : rng_state * nat) :
  exists r state',
    analyze_in_run get_wallet_basic_info fetch_all_transactions clock wallet state
    = (inr r, state') /\
    wallet_address r = wallet /\
    (is_failed r = true \/ report r <> None) /\
    risk_category r <> "Critical Error"%string.
Proof.
  destruct state as [rng i]. unfold analyze_in_run.
  pose proof (analyze_wallet_outcome get_wallet_basic_info fetch_all_transactions
                (clock i) wallet rng) as H.
  cbv zeta in H.
  destruct (analyze_wallet get_wallet_basic_info fetch_all_transactions
                           (clock i) wallet rng) as [r rng'].
  cbn [fst] in H. exists r, (rng', S i). split; [reflexivity|].
  destruct H as [(e & ->)|(f & rng1 & rep & Ha & Hs & Hrep & _ & _ & Hcat)].
  - repeat split; [left; reflexivity | discriminate].
  - split; [exact Ha|]. split; [right; rewrite Hrep; discriminate|].
    rewrite Hcat. apply categorize_risk_is_not_critical.
Qed.

(** X18: driving [analyze_wallet] over a list: the frame has exactly one row per
    wallet, in the order of the list; the failed counter is the number of
    rows with status "failed" and the active counter the number of rows
    reporting an active wallet; no row is a "Critical Error" row, the
    driver's own handler being never entered. *)
Theorem driver_one_row_per_wallet
    (wallets : list string) (batch_size : Z) (state state' : rng_state * nat)
    (results : list AnalysisResult) (tally : Tally)
    (Hrun :
       analyze_wallet_list_batch
         (analyze_in_run get_wallet_basic_info fetch_all_transactions clock)
         wallets batch_size state
       = inr (results, tally, state')) :
  map wallet_address results = wallets /\
  failed_count tally = Py.len (filter is_failed results) /\
  active_count tally = Py.len (filter reports_active results) /\
  Forall (fun r => risk_category r <> "Critical Error"%string) results.
Proof.
  pose proof (driver_needs_positive_size _ _ _ _ _ Hrun) as Hpos.
  rewrite driver_loop in Hrun by exact Hpos. cbv zeta in Hrun.
  destruct (process_wallets_one_each
              (analyze_in_run get_wallet_basic_info fetch_all_transactions clock))
    with (wallets := wallets)
         (tally := {| active_count := 0; inactive_count := 0; failed_count := 0 |})
         (w := state)
    as (Hmap & Hf & Ha & Hall).
  { intros wallet w. destruct (analyze_in_run_behaves wallet w)
      as (r & w' & H1 & H2 & H3 & _). eauto. }
  cbv zeta in Hmap, Hf, Ha, Hall.
  destruct (Py.len _ =? 0)%Z; [discriminate Hrun|]. injection Hrun as Hout.
  rewrite Hout in Hmap, Hf, Ha, Hall. cbn [fst snd] in *.
  simpl in Hf, Ha.
  repeat split; try assumption.
  eapply Forall_impl; [|exact Hall].
  intros r (wallet & w0 & Hr).
  destruct (analyze_in_run_behaves wallet w0) as (r' & w' & H1 & _ & _ & Hc).
  rewrite H1 in Hr. simpl in Hr. injection Hr as <-. exact Hc.
Qed.

End BatchOverAnalysis.

(** ** From the explorer to the features *)

Section FromExplorer.

Context {RT : Runtime}.
Variable http_get_txlist : string -> result TxListResponse.
Variable _generate_realistic_mock_data :
  string -> rng_state -> result (list Transaction) * rng_state.

Lemma classified_flags (tx tx' : ExplorerTx) :
  classify_transaction tx = inr tx' ->
  flags_exclusive (tx_body tx') = true /\
  int_field (value (tx_body tx')) = true /\
  is_compound (tx_body tx') <> None /\
  is_defi (tx_body tx') <> None.
Proof.
  rewrite classify_transaction_cases.
  destruct (tx_to tx) as [a|]; [|discriminate].
  destruct (value (tx_body tx)) as [s|] eqn:Hs; [|discriminate].
  destruct (py_int s) as [e|v] eqn:Hv; [discriminate|].
  intro H. injection H as <-. simpl.
  unfold flags_exclusive, int_field. simpl. rewrite Hs, Hv.
  repeat split; try discriminate; try reflexivity.
  destruct (is_compound_address a) eqn:C; [|reflexivity].
  rewrite (compound_and_defi_are_disjoint a C). reflexivity.
Qed.

Lemma ingested_flags (data : TxListResponse) (transactions : list Transaction) :
  ingest_response data = inr transactions ->
  forall tx, In tx transactions ->
    flags_exclusive tx = true /\ int_field (value tx) = true /\
    is_compound tx <> None /\ is_defi tx <> None.
Proof.
  unfold ingest_response. intro H.
  apply bind_inr in H as (status & _ & H).
  destruct (String.eqb status "1"); [|injection H as <-; intros tx []].
  apply bind_inr in H as (raw & _ & H).
  destruct raw as [|tx0 raw]; [injection H as <-; intros tx []|].
  apply bind_inr in H as (classified & Hc & H). injection H as <-.
  apply mapM_inr in Hc.
  intros tx Hin. apply in_map_iff in Hin as (tx' & <- & Hin').
  clear -Hc Hin'.
  induction Hc as [|x y xs ys Hxy _ IH]; [destruct Hin'|].
  destruct Hin' as [<-|Hin']; [exact (classified_flags _ _ Hxy) | apply IH, Hin'].
Qed.

(** X19: transactions ingested from the explorer carry both flags, never both
    true, so the engagement score extracted from them lies in [0,1]. *)
Theorem ingested_engagement_in_unit
    (data : TxListResponse) (transactions : list Transaction)
    (now : Z) (basic_info : BasicInfo) (f : Features)
    (Hingest : ingest_response data = inr transactions)
    (Hextract : extract_comprehensive_features now basic_info transactions = inr f) :
  (forall tx, In tx transactions ->
     is_compound tx <> None /\ is_defi tx <> None /\ flags_exclusive tx = true) /\
  in_unit (engagement_score f).
Proof.
  pose proof (ingested_flags _ _ Hingest) as Hall.
  split; [intros tx Hin; destruct (Hall tx Hin) as (H1 & _ & H3 & H4); auto|].
  assert (Hflags : forallb flags_exclusive transactions = true).
  { apply forallb_forall. intros tx Hin. apply (Hall tx Hin). }
  destruct (extraction_facts _ _ _ _ Hextract)
    as (_ & _ & _ & Hc & Hd & _ & _ & _ & _ & _ & _ & Ee & _).
  pose proof (exclusive_counts_of_extraction _ _ _ _ Hextract Hflags).
  unfold in_unit. rewrite Ee. apply ratio_in_unit; lia.
Qed.

(** What a response that ingestion accepts is turned into. *)
Lemma ingest_response_inr (data : TxListResponse) (transactions : list Transaction) :
  ingest_response data = inr transactions ->
  exists status,
    resp_status data = Some status /\
    if String.eqb status "1" then
      exists raw classified,
        resp_result data = Some raw /\
        Forall2 (fun r c => classify_transaction r = inr c) raw classified /\
        transactions = map tx_body classified
    else transactions = [].
Proof.
  unfold ingest_response. intro H.
  apply bind_inr in H as (status & Hstatus & H). apply getitem_inr in Hstatus.
  exists status. split; [exact Hstatus|].
  destruct (String.eqb status "1"); [|injection H as <-; reflexivity].
  apply bind_inr in H as (raw & Hraw & H). apply getitem_inr in Hraw.
  destruct raw as [|r raw].
  - injection H as <-. exists [], []. repeat split; [exact Hraw | constructor].
  - apply bind_inr in H as (classified & Hc & H). injection H as <-.
    apply mapM_inr in Hc. exists (r :: raw), classified. auto.
Qed.

(** X20: [fetch_all_transactions] raises nothing of its own.  Without an API
    key it returns what the synthetic generator returns.  With a key and a
    response that ingestion accepts it returns the ingested records and
    leaves NumPy's generator untouched: no record unless the status is
    "1", else one record per explorer record, in order, each classified
    from its recipient.  With a key it falls back on the synthetic
    generator exactly when the request raises or ingestion raises. *)
Theorem fetch_all_transactions_outcomes
    (etherscan_api_key : option string) (wallet_address : string)
    (rng : rng_state) :
  let out :=
    fetch_all_transactions http_get_txlist _generate_realistic_mock_data
                           etherscan_api_key wallet_address rng in
  ((etherscan_api_key = None \/ etherscan_api_key = Some EmptyString) ->
   out = _generate_realistic_mock_data wallet_address rng) /\
  (forall key data transactions,
     etherscan_api_key = Some key -> key <> EmptyString ->
     http_get_txlist wallet_address = inr data ->
     ingest_response data = inr transactions ->
     out = (inr transactions, rng) /\
     exists status,
       resp_status data = Some status /\
       if String.eqb status "1" then
         exists raw classified,
           resp_result data = Some raw /\
           Forall2 (fun r c => classify_transaction r = inr c) raw classified /\
           transactions = map tx_body classified
       else transactions = []) /\
  (forall key e,
     etherscan_api_key = Some key -> key <> EmptyString ->
     (http_get_txlist wallet_address = inl e \/
      exists data, http_get_txlist wallet_address = inr data /\
                   ingest_response data = inl e) ->
     out = _generate_realistic_mock_data wallet_address rng).
Proof.
  unfold fetch_all_transactions. split; [|split].
  - intros [->| ->]; reflexivity.
  - intros key data transactions -> Hkey Hdata Hingest.
    apply String.eqb_neq in Hkey. rewrite Hkey, Hdata. simpl. rewrite Hingest.
    split; [reflexivity | exact (ingest_response_inr _ _ Hingest)].
  - intros key e -> Hkey Hfault.
    apply String.eqb_neq in Hkey. rewrite Hkey.
    destruct Hfault as [Hreq|(data & Hreq & Hingest)]; rewrite Hreq; simpl;
      [|rewrite Hingest]; reflexivity.
Qed.

End FromExplorer.

(** ** The account snapshot *)

Section SnapshotFacts.

Context {RT : Runtime}.
Variable http_get_balance : string -> result ApiResponse.
Variable http_get_txcount : string -> result ApiResponse.

(** X21: the activity flag of a snapshot agrees with its figures on every path,
    the failure path included: the wallet is flagged active exactly when
    both its transaction count and its balance are positive. *)
Theorem snapshot_flag_consistent (wallet_address : string) :
  let snapshot :=
    get_wallet_basic_info http_get_balance http_get_txcount wallet_address in
  is_active snapshot = true <->
  (0 < bi_total_tx_count snapshot)%Z /\ 0 < bi_eth_balance snapshot.
Proof.
  unfold get_wallet_basic_info.
  destruct (get_wallet_basic_info_body _ _ wallet_address) as [e|b] eqn:E.
  - simpl. split; [discriminate | intros [H _]; lia].
  - unfold get_wallet_basic_info_body in E.
    apply bind_inr in E as (bd & _ & E).
    apply bind_inr in E as (status & _ & E).
    apply bind_inr in E as (bal & _ & E).
    apply bind_inr in E as (td & _ & E).
    apply bind_inr in E as (total & _ & E).
    injection E as <-. simpl.
    rewrite andb_true_iff, Z.ltb_lt, ltb_lt. reflexivity.
Qed.

(** X22: when the figures the explorer reports are read by [int] as
    non-negative numbers, a snapshot has a non-negative balance and a
    non-negative transaction count, on the failure path as well. *)
Theorem snapshot_is_non_negative (wallet_address : string)
    (Hbalance : forall data r wei,
       http_get_balance wallet_address = inr data ->
       api_result data = Some r -> py_int r = inr wei -> (0 <= wei)%Z)
    (Hcount : forall data r n,
       http_get_txcount wallet_address = inr data ->
       api_result data = Some r -> py_int_base16 r = inr n -> (0 <= n)%Z) :
  let snapshot :=
    get_wallet_basic_info http_get_balance http_get_txcount wallet_address in
  0 <= bi_eth_balance snapshot /\ (0 <= bi_total_tx_count snapshot)%Z.
Proof.
  unfold get_wallet_basic_info.
  destruct (get_wallet_basic_info_body _ _ wallet_address) as [e|b] eqn:E.
  - simpl. split; [lra | lia].
  - unfold get_wallet_basic_info_body in E.
    apply bind_inr in E as (bd & Hbd & E).
    apply bind_inr in E as (status & _ & E).
    apply bind_inr in E as (bal & Hbal & E).
    apply bind_inr in E as (td & Htd & E).
    apply bind_inr in E as (total & Htotal & E).
    injection E as <-. simpl. split.
    + destruct (String.eqb status "1"); [|injection Hbal as <-; lra].
      apply bind_inr in Hbal as (r & Hr & Hbal). apply getitem_inr in Hr.
      apply bind_inr in Hbal as (wei & Hwei & Hbal).
      apply py_truediv_inr in Hbal as [_ ->].
      pose proof (Hbalance bd r wei Hbd Hr Hwei).
      apply div_nonneg.
      * change 0 with (inject_Z 0). apply inject_Z_le. assumption.
      * apply inject_Z_pos. reflexivity.
    + destruct (api_result td) as [r|] eqn:Hr; [|injection Htotal as <-; lia].
      exact (Hcount td r total Htd Hr Htotal).
Qed.

End SnapshotFacts.

(** ** The new properties on the sample data *)

Lemma demo_std_nonneg (xs : list Q) : 0 <= Demo.std xs.
Proof.
  unfold Demo.std, Demo.sqrt_down, Qle. cbn [Qnum Qden].
  rewrite Z.mul_0_l, Z.mul_1_r. apply Z.sqrt_nonneg.
Qed.

(** The router written in capitals is recognised. *)
Lemma defi_address_recognition_witness :
  String.length Samples.router_upper = 42%nat /\
  _is_defi_transaction Samples.router_upper = true.
Proof.
  split; [reflexivity|].
  apply (proj2 (defi_address_recognition Samples.router_upper eq_refl)).
  left. reflexivity.
Defined.

(** One ether sent to the router is labelled "defi". *)
Lemma classify_transaction_result_witness :
  exists tx',
    classify_transaction (RT := Demo.runtime)
      (Samples.explorer_tx Samples.router_upper Demo.now) = inr tx' /\
    tx_type tx' = Some "defi"%string /\
    is_compound (tx_body tx') = Some false /\
    is_defi (tx_body tx') = Some true.
Proof.
  eexists. split; [reflexivity|].
  destruct (classify_transaction_result (RT := Demo.runtime)
              (Samples.explorer_tx Samples.router_upper Demo.now) _ eq_refl)
    as (a & s & v & Ha & Hs & Hv & _ & _ & _ & _ & Hc & Hd & _ & Ht & _).
  repeat split; reflexivity.
Defined.

(** The list with a record lacking its value raises on that key. *)
Lemma extraction_failure_report_witness :
  extract_comprehensive_features (RT := Demo.runtime)
    Demo.now Demo.busy_info Samples.broken_txs = inl (KeyError "value") /\
  exists tx, In tx Samples.broken_txs /\ value tx = None.
Proof.
  assert (H : extract_comprehensive_features (RT := Demo.runtime)
                Demo.now Demo.busy_info Samples.broken_txs = inl (KeyError "value"))
    by reflexivity.
  split; [exact H|].
  destruct (extraction_failure_report (RT := Demo.runtime) _ _ _ _ H)
    as [[E _]|[(_ & tx & Hin & [[Hv _]|[(s & _ & Hp)|(s & v & _ & _ & _ & E)]])
              |(Hall & _)]].
  - discriminate E.
  - exists tx. auto.
  - exfalso. change (Demo.parse_int s = inl (KeyError "value")) in Hp.
    unfold Demo.parse_int in Hp.
    destruct (match s with
              | String "-"%char t => _
              | String "+"%char t => _
              | _ => _
              end); discriminate Hp.
  - discriminate E.
  - exfalso.
    destruct (Hall _ (or_intror (or_introl eq_refl))) as [_ Hread].
    discriminate Hread.
Defined.

(** A value of 10^400 wei is read by [int] but does not fit a float, and a
    time stamp of 10^14 seconds is beyond year 9999: extraction raises on
    either. *)
Example extraction_raises_on_readable_literals :
  extract_comprehensive_features (RT := Demo.runtime) Demo.now Demo.busy_info
    [Demo.transfer (10 ^ 400) (Demo.now - 60)]
  = inl (OverflowError "integer division result too large for a float") /\
  exists msg,
    extract_comprehensive_features (RT := Demo.runtime) Demo.now Demo.busy_info
      [Demo.transfer Demo.ether (10 ^ 14)]
    = inl (ValueError msg).
Proof. split; [|eexists]; vm_compute; reflexivity. Qed.

(** The counts of the wallet with three transfers. *)
Lemma extracted_counts_consistent_witness :
  exists f,
    extract_comprehensive_features (RT := Demo.runtime)
      Demo.now Demo.busy_info Demo.busy_txs = inr f /\
    analyzed_transactions f = 3%Z /\
    (successful_transactions f + failed_transactions f = analyzed_transactions f)%Z.
Proof.
  eexists. split; [vm_compute; reflexivity|].
  split; [reflexivity|].
  apply (extracted_counts_consistent (RT := Demo.runtime)
           Demo.now Demo.busy_info Demo.busy_txs).
  vm_compute; reflexivity.
Defined.

(** The rates of the wallet with three transfers. *)
Lemma extracted_rates_bounded_witness :
  exists f,
    extract_comprehensive_features (RT := Demo.runtime)
      Demo.now Demo.busy_info Demo.busy_txs = inr f /\
    in_unit (success_rate f) /\ wallet_maturity f <= 1.
Proof.
  eexists. split; [vm_compute; reflexivity|].
  destruct (extracted_rates_bounded (RT := Demo.runtime)
              Demo.now Demo.busy_info Demo.busy_txs _
              ltac:(vm_compute; reflexivity))
    as (Hs & _ & _ & _ & _ & _ & Hm).
  split; [exact Hs | exact Hm].
Defined.

(** The activity decline of the wallet with twelve recent transfers. *)
Lemma activity_decline_range_witness :
  exists f,
    extract_comprehensive_features (RT := Demo.runtime)
      Demo.now Samples.heavy_info Samples.heavy_txs = inr f /\
    activity_decline f == -(11) /\
    -(11) <= activity_decline f <= 1.
Proof.
  eexists. split; [vm_compute; reflexivity|].
  split; [evaluate|].
  apply (activity_decline_range (RT := Demo.runtime)
           Demo.now Samples.heavy_info Samples.heavy_txs).
  vm_compute; reflexivity.
Defined.

(** The volume figures of the wallet with a single half-ether transfer. *)
Lemma extracted_volume_bounds_witness :
  forallb (value_nonneg (RT := Demo.runtime)) Demo.small_txs = true /\
  exists f,
    extract_comprehensive_features (RT := Demo.runtime)
      Demo.now Demo.small_info Demo.small_txs = inr f /\
    0 <= max_tx_value_eth f <= total_volume_eth f /\
    0 <= avg_tx_value_eth f /\
    in_unit (volume_concentration f).
Proof.
  split; [reflexivity|].
  eexists. split; [vm_compute; reflexivity|].
  apply (extracted_volume_bounds (RT := Demo.runtime)
           Demo.now Demo.small_info Demo.small_txs);
    vm_compute; reflexivity.
Defined.

(** The wallet with twelve DeFi transfers made within the hour meets the
    conditions, and reaches both lower bounds. *)
Lemma active_components_on_sound_input_witness :
  forallb (value_nonneg (RT := Demo.runtime)) Samples.heavy_txs = true /\
  forallb (not_in_future (RT := Demo.runtime) Demo.now) Samples.heavy_txs = true /\
  forallb flags_exclusive Samples.heavy_txs = true /\
  exists f,
    extract_comprehensive_features (RT := Demo.runtime)
      Demo.now Samples.heavy_info Samples.heavy_txs = inr f /\
    liquidation (active_risk_components f) == -(22 # 10) /\
    activity (active_risk_components f) == -(33 # 10) /\
    in_unit (volatility (active_risk_components f)) /\
    in_unit (concentration (active_risk_components f)) /\
    in_unit (leverage (active_risk_components f)) /\
    in_unit (liquidity (active_risk_components f)).
Proof.
  split; [reflexivity|]. split; [reflexivity|]. split; [reflexivity|].
  eexists. split; [vm_compute; reflexivity|].
  split; [evaluate|]. split; [evaluate|].
  destruct (active_components_on_sound_input (RT := Demo.runtime)
              Demo.now Samples.heavy_info Samples.heavy_txs _
              ltac:(vm_compute; reflexivity) demo_std_nonneg
              eq_refl eq_refl eq_refl)
    as (H1 & H2 & H3 & H4 & _).
  repeat split; first [apply H1 | apply H2 | apply H3 | apply H4].
Defined.

(** The never-used wallet is scored in the middle band. *)
Lemma inactive_wallet_middle_band_witness :
  exists rep,
    report (fst (analyze_wallet (RT := Demo.runtime)
                   Samples.unused_snapshot Samples.nothing_fetched
                   Demo.now "0xaaa" 0%Z)) = Some rep /\
    rep_is_active_wallet rep = false /\
    200 <= risk_score (fst (analyze_wallet (RT := Demo.runtime)
                              Samples.unused_snapshot Samples.nothing_fetched
                              Demo.now "0xaaa" 0%Z)) <= 700.
Proof.
  eexists. split; [vm_compute; reflexivity|]. split; [reflexivity|].
  apply (inactive_wallet_middle_band (RT := Demo.runtime)
           Samples.unused_snapshot Samples.nothing_fetched
           Demo.now "0xaaa" 0%Z _ ltac:(vm_compute; reflexivity) eq_refl).
Defined.

(** The never-used wallet: each component within the drawn value of its
    base risk. *)
Lemma inactive_perturbation_bounded_witness :
  is_active_wallet (_get_inactive_wallet_features Demo.unused_info) = false /\
  forall c, in_unit (lookup (base_risks (_get_inactive_wallet_features
                                           Demo.unused_info)) c).
Proof.
  split; [reflexivity|].
  apply (inactive_perturbation_bounded (RT := Demo.runtime)
           (_get_inactive_wallet_features Demo.unused_info) 0%Z eq_refl).
Defined.

(** Raising three components raises the score of an active wallet. *)
Lemma composite_score_monotone_witness :
  exists f,
    extract_comprehensive_features (RT := Demo.runtime)
      Demo.now Demo.busy_info Demo.busy_txs = inr f /\
    (forall c, lookup Samples.low_components c <= lookup Samples.high_components c) /\
    calculate_composite_score Samples.low_components f
    <= calculate_composite_score Samples.high_components f.
Proof.
  eexists. split; [vm_compute; reflexivity|].
  assert (H : forall c, lookup Samples.low_components c
                        <= lookup Samples.high_components c)
    by (intros []; evaluate).
  split; [exact H|].
  match goal with
  | |- calculate_composite_score _ ?f <= _ =>
      exact (proj1 (composite_score_monotone
                      Samples.low_components Samples.high_components f f
                      H eq_refl eq_refl (Qle_refl _) (Qle_refl _)))
  end.
Defined.

(** Batches of one and of two give the same frame. *)
Lemma batching_is_transparent_witness :
  (0 < 1)%Z /\ (0 < 2)%Z /\
  analyze_wallet_list_batch Samples.analyze Samples.wallets 1 (0%Z, 0%nat)
  = analyze_wallet_list_batch Samples.analyze Samples.wallets 2 (0%Z, 0%nat).
Proof.
  split; [reflexivity|]. split; [reflexivity|].
  apply (batching_is_transparent Samples.analyze Samples.wallets 1 2
           (0%Z, 0%nat) eq_refl eq_refl).
Defined.

(** Three never-used wallets: three rows, in order. *)
Lemma driver_one_row_per_wallet_witness :
  exists results tally state',
    analyze_wallet_list_batch Samples.analyze Samples.wallets 2 (0%Z, 0%nat)
    = inr (results, tally, state') /\
    map wallet_address results = Samples.wallets /\
    failed_count tally = Py.len (filter is_failed results).
Proof.
  eexists. eexists. eexists. split; [vm_compute; reflexivity|].
  destruct (driver_one_row_per_wallet (RT := Demo.runtime)
              Samples.unused_snapshot Samples.nothing_fetched Samples.clock
              Samples.wallets 2 (0%Z, 0%nat) _ _ _
              ltac:(vm_compute; reflexivity))
    as (H1 & H2 & _).
  split; [exact H1 | exact H2].
Defined.

(** The three explorer records give an engagement score of 2/3. *)
Lemma ingested_engagement_in_unit_witness :
  ingest_response (RT := Demo.runtime) Samples.response = inr Samples.ingested /\
  exists f,
    extract_comprehensive_features (RT := Demo.runtime)
      Demo.now Demo.busy_info Samples.ingested = inr f /\
    engagement_score f == 2 # 3 /\
    in_unit (engagement_score f).
Proof.
  split; [reflexivity|].
  eexists. split; [vm_compute; reflexivity|]. split; [evaluate|].
  apply (ingested_engagement_in_unit (RT := Demo.runtime)
           Samples.response Samples.ingested Demo.now Demo.busy_info _ eq_refl).
  vm_compute; reflexivity.
Defined.

(** The snapshot of the wallet holding five ether after 26 transactions. *)
Lemma snapshot_is_non_negative_witness :
  bi_total_tx_count (get_wallet_basic_info (RT := Demo.runtime)
                       Samples.balance_response
                       Samples.txcount_response "0xabc") = 26%Z /\
  0 <= bi_eth_balance (get_wallet_basic_info (RT := Demo.runtime)
                         Samples.balance_response
                         Samples.txcount_response "0xabc") /\
  (0 <= bi_total_tx_count (get_wallet_basic_info (RT := Demo.runtime)
                             Samples.balance_response
                             Samples.txcount_response "0xabc"))%Z.
Proof.
  split; [reflexivity|].
  apply (snapshot_is_non_negative (RT := Demo.runtime) Samples.balance_response
           Samples.txcount_response "0xabc").
  - intros data r wei H Hr Hwei. injection H as <-. injection Hr as <-.
    vm_compute in Hwei. injection Hwei as <-. discriminate.
  - intros data r n H Hr Hn. injection H as <-. injection Hr as <-.
    vm_compute in Hn. injection Hn as <-. discriminate.
Defined.
